(** * mkpy3: the TESS overlay script and the smoke-test runner

    A shallow embedding of the two scripts of the repository,
    [mkpy3_tess_tpf_overlay_v3.py] and [check_mkpy3_v5.py], and the
    properties of their command-line handling, output guard and
    pass/fail accounting.

    Python values are modelled dynamically ([pyval]); a computation is a
    pair of the events it produced (text written, file-system queries,
    calls to collaborators) and the way it ended ([outcome]). *)

From Stdlib Require Import List String Ascii ZArith Bool Lia.
From Stdlib Require Import PrimFloat DecimalString.
Import ListNotations.
Local Open Scope string_scope.
Local Open Scope Z_scope.

(** ** Python values *)

(** The values the scripts handle.  [VObject] stands for an instance of
    any other class, named by its class. *)
#[warnings="-register-all"]
Inductive pyval : Type :=
| VNone
| VBool (b : bool)
| VInt (z : Z)
| VFloat (f : float)
| VStr (s : string)
| VList (l : list pyval)
| VTuple (l : list pyval)
| VDict (l : list (pyval * pyval))
| VObject (cls : string).

(** [isinstance(v, str)] and [isinstance(v, bool)].  An [int] is not a
    [bool], although a [bool] is an [int]. *)
Definition isinstance_str (v : pyval) : bool :=
  match v with VStr _ => true | _ => false end.

Definition isinstance_bool (v : pyval) : bool :=
  match v with VBool _ => true | _ => false end.

(** Truth value of an object, as [if] and [not] take it. *)
Definition truthy (v : pyval) : bool :=
  match v with
  | VNone => false
  | VBool b => b
  | VInt z => negb (z =? 0)
  | VFloat f => negb (PrimFloat.eqb f 0%float)
  | VStr s => negb (String.eqb s "")
  | VList l | VTuple l => match l with [] => false | _ => true end
  | VDict l => match l with [] => false | _ => true end
  | VObject _ => true
  end.

(** ** Exceptions, outcomes and events *)

(** The subclasses of [Exception] that occur.  [SystemExit] is not one of
    them (it derives from [BaseException]): it is the [Exit] outcome. *)
Inductive exc : Type :=
| AssertionError
| AttributeError
| TypeError
| ValueError
| SyntaxError
| NameError
| ArgumentTypeError (msg : string)
| OtherError (cls : string).

Inductive outcome (A : Type) : Type :=
| Ret (a : A)
| Raise (e : exc)
| Exit (status : Z).
Arguments Ret {A} a.
Arguments Raise {A} e.
Arguments Exit {A} status.

(** Reading an attribute of an object gives a value or raises. *)
Inductive attribute : Type :=
| Has (v : pyval)
| Fails (e : exc).

(** An object as the script looks at it: what reading its attributes
    [path] and [mission] gives.  [lk.open] and [download] return such an
    object (a TargetPixelFile, some other product, or [None]). *)
Record pyobject : Type := {
  path : attribute;
  mission : attribute
}.

(** [None]: it has neither attribute. *)
Definition None_object : pyobject :=
  {| path := Fails AttributeError; mission := Fails AttributeError |}.

Module Kw.
(** The keyword arguments of [mkpy3_tess_tpf_overlay_v3], which hands
    every one of them on to [mkpy3_tpf_overlay_v4]. *)
Record t : Type := mk {
  tpf : pyobject;
  frame : pyval;
  survey : pyval;
  width_height_arcmin : pyval;
  shrink : pyval;
  show_plot : pyval;
  plot_file : pyval;
  overwrite : pyval;
  figsize_str : pyval;
  title : pyval;
  percentile : pyval;
  cmap : pyval;
  colors_str : pyval;
  lws_str : pyval;
  zorders_str : pyval;
  marker_kwargs_str : pyval;
  print_gaia_dr2 : pyval;
  gaia_dr2_kwargs_str : pyval;
  print_vsx : pyval;
  vsx_kwargs_str : pyval;
  sexagesimal : pyval;
  verbose : pyval
}.
End Kw.

(** What a run does that can be observed from outside. *)
Inductive event : Type :=
| Stdout (text : string)       (* text written by [print] *)
| IsFile (path : string)       (* a call of [os.path.isfile] *)
| ArgparseError (flag : string) (msg : string)
                               (* [parser.error]: usage and message on stderr *)
| Overlay (kw : Kw.t).         (* the call of [mkpy3_tpf_overlay_v4] *)

(** A computation: the events in order, and how it ended. *)
Definition M (A : Type) : Type := (list event * outcome A)%type.

Definition ret {A} (a : A) : M A := ([], Ret a).

Definition bind {A B} (m : M A) (k : A -> M B) : M B :=
  match m with
  | (tr, Ret a) => let (tr', o) := k a in ((tr ++ tr')%list, o)
  | (tr, Raise e) => (tr, Raise e)
  | (tr, Exit n) => (tr, Exit n)
  end.

Definition raise {A} (e : exc) : M A := ([], Raise e).

(** A call of a collaborator that leaves no event of its own. *)
Definition lift {A} (o : outcome A) : M A := ([], o).

(** [obj.attr]. *)
Definition getattr (a : attribute) : M pyval :=
  match a with
  | Has v => ret v
  | Fails e => raise e
  end.

(** [sys.exit(n)]. *)
Definition sys_exit {A} (n : Z) : M A := ([], Exit n).

(** [print(s)]: the text and a newline. *)
Definition LF : string := String (ascii_of_nat 10) EmptyString.

Definition print (s : string) : M unit :=
  ([Stdout (s ++ LF)], Ret tt).

(** [assert(b)], assertions enabled (the interpreter's default). *)
Definition assert (b : bool) : M unit :=
  if b then ret tt else raise AssertionError.

(** [try: body  except Exception: handler]: every [exc] is caught, an
    exit is not. *)
Definition try_except {A} (body : M A) (handler : M A) : M A :=
  match body with
  | (tr, Raise _) => let (tr', o) := handler in ((tr ++ tr')%list, o)
  | other => other
  end.

(** The status the process ends with: 0 when the script runs to its end,
    the argument of [sys.exit], and 1 after the traceback of an exception
    that nothing caught. *)
Definition exit_status {A} (o : outcome A) : Z :=
  match o with
  | Ret _ => 0
  | Raise _ => 1
  | Exit n => n
  end.

Declare Scope py_scope.
Delimit Scope py_scope with py.
Notation "x <- m ;; k" := (bind m (fun x => k))
  (at level 61, m at next level, right associativity) : py_scope.
Notation "m ;; k" := (bind m (fun _ => k))
  (at level 61, right associativity) : py_scope.
Local Open Scope py_scope.

(** All the text a trace wrote to standard output. *)
Fixpoint stdout_of (tr : list event) : string :=
  match tr with
  | [] => ""
  | Stdout s :: tr' => s ++ stdout_of tr'
  | _ :: tr' => stdout_of tr'
  end.

(** The paths a trace asked the file system about. *)
Fixpoint isfile_queries (tr : list event) : list string :=
  match tr with
  | [] => []
  | IsFile p :: tr' => p :: isfile_queries tr'
  | _ :: tr' => isfile_queries tr'
  end.

(** The calls a trace made to the rendering delegate. *)
Fixpoint overlay_calls (tr : list event) : list Kw.t :=
  match tr with
  | [] => []
  | Overlay kw :: tr' => kw :: overlay_calls tr'
  | _ :: tr' => overlay_calls tr'
  end.

(** [sub] occurs in [s]. *)
Definition contains (s sub : string) : Prop :=
  exists pre post, s = pre ++ sub ++ post.

(** ** [str2bool] *)

(** [str.lower] on one character.  Strings are sequences of bytes here;
    outside ASCII no character of Python's lowers to a letter of the
    words [str2bool] looks for, so those bytes are left alone. *)
Definition lower_ascii (c : ascii) : ascii :=
  let n := nat_of_ascii c in
  if ((65 <=? n) && (n <=? 90))%nat then ascii_of_nat (n + 32)%nat else c.

Fixpoint lower (s : string) : string :=
  match s with
  | EmptyString => EmptyString
  | String c s' => String (lower_ascii c) (lower s')
  end.

(** The same string up to the case of its ASCII letters: what "in any
    letter case" means, character by character. *)
Definition upper_ascii (c : ascii) : ascii :=
  let n := nat_of_ascii c in
  if ((97 <=? n) && (n <=? 122))%nat then ascii_of_nat (n - 32)%nat else c.

Definition same_letter (a b : ascii) : Prop :=
  a = b \/ a = upper_ascii b \/ b = upper_ascii a.

Inductive recase : string -> string -> Prop :=
| recase_nil : recase EmptyString EmptyString
| recase_cons a b s t :
    same_letter a b -> recase s t -> recase (String a s) (String b t).

(** [x in (a, b, ...)] on strings. *)
Definition str_in (x : string) (t : list string) : bool :=
  existsb (String.eqb x) t.

Definition true_words : list string := ["yes"; "true"; "t"; "y"; "1"].
Definition false_words : list string := ["no"; "false"; "f"; "n"; "0"].

Definition str2bool (v : string) : outcome bool :=
  if str_in (lower v) true_words then Ret true
  else if str_in (lower v) false_words then Ret false
  else Raise (ArgumentTypeError "Boolean value expected.").

(** ** [check_file_exists] *)

(** Which of the module's global names [os] and [sys] are bound.  The
    script binds both at the head of its main block (lines 235-236),
    before anything is called.  The module as another program imports
    it binds neither: line 34 deletes [sys], [os] is not imported
    outside the main block, and the main block is not run. *)
Record globals : Type := {
  os_bound : bool;
  sys_bound : bool
}.

Definition as_script : globals := {| os_bound := true; sys_bound := true |}.
Definition as_module : globals := {| os_bound := false; sys_bound := false |}.

Section Guard.
(** The file system: which paths name an existing regular file. *)
Variable isfile : string -> bool.

Definition os_path_isfile (p : string) : M bool :=
  ([IsFile p], Ret (isfile p)).

Definition msg : string :=
  "Requested output file already exists (overwrite=False):" ++ LF.

(** The function looks the global names [os] and [sys] up when it gets
    to them; a name that is not bound raises [NameError]. *)
Definition global_name (bound : bool) : M unit :=
  if bound then ret tt else raise NameError.

Definition check_file_exists (g : globals) (filename overwrite : pyval)
  : M unit :=
  assert (isinstance_str filename) ;;
  assert (isinstance_bool overwrite) ;;
  if negb (truthy overwrite) then
    match filename with     (* a [str], by the first assertion *)
    | VStr path =>
        global_name (os_bound g) ;;
        b <- os_path_isfile path ;;
        if b then
          print (LF ++ "***** ERROR *****" ++ LF ++ LF ++ msg) ;;
          print ("new_filename='" ++ path ++ "'" ++ LF) ;;
          global_name (sys_bound g) ;;
          sys_exit 1
        else ret tt
    | _ => raise TypeError
    end
  else ret tt.
End Guard.

(** ** The argument parser of the overlay script *)

Module Opt.
(** The destinations of the options, in the order of the
    [add_argument] calls. *)
Inductive dest : Type :=
| tpf_filename | frame | survey | width_height_arcmin | shrink
| show_plot | plot_file | overwrite | figsize_str | title | percentile
| cmap | colors_str | lws_str | zorders_str | marker_kwargs_str
| print_gaia_dr2 | gaia_dr2_kwargs_str | print_vsx | vsx_kwargs_str
| sexagesimal | verbose.

Definition eq_dec (a b : dest) : {a = b} + {a <> b}.
Proof. decide equality. Defined.

Definition eqb (a b : dest) : bool := if eq_dec a b then true else false.

Definition name (d : dest) : string :=
  match d with
  | tpf_filename => "tpf_filename" | frame => "frame" | survey => "survey"
  | width_height_arcmin => "width_height_arcmin" | shrink => "shrink"
  | show_plot => "show_plot" | plot_file => "plot_file"
  | overwrite => "overwrite" | figsize_str => "figsize_str"
  | title => "title" | percentile => "percentile" | cmap => "cmap"
  | colors_str => "colors_str" | lws_str => "lws_str"
  | zorders_str => "zorders_str"
  | marker_kwargs_str => "marker_kwargs_str"
  | print_gaia_dr2 => "print_gaia_dr2"
  | gaia_dr2_kwargs_str => "gaia_dr2_kwargs_str"
  | print_vsx => "print_vsx" | vsx_kwargs_str => "vsx_kwargs_str"
  | sexagesimal => "sexagesimal" | verbose => "verbose"
  end.

(** The option string, [--name]. *)
Definition flag (d : dest) : string := "--" ++ name d.
End Opt.

(** The callables given as [type=]. *)
Inductive type_func : Type :=
| type_str | type_int | type_float | type_str2bool | type_literal_eval.

(** [type.__name__], as argparse's messages print it. *)
Definition type_name (t : type_func) : string :=
  match t with
  | type_str => "str" | type_int => "int" | type_float => "float"
  | type_str2bool => "str2bool" | type_literal_eval => "literal_eval"
  end.

(** One [parser.add_argument(...)]. *)
Record add_argument : Type := {
  dest : Opt.dest;
  type : type_func;
  default : pyval;
  help : string
}.

(** The double quote, for the help texts that hold one. *)
Definition DQ : string := String (ascii_of_nat 34) EmptyString.

Definition kwargs_marker : string :=
  "{'edgecolor':'yellow', 's':600, 'facecolor':'None', 'lw':3, "
  ++ "'zorder':10}".
Definition kwargs_gaia_dr2 : string :=
  "{'edgecolor':'cyan', 's':150, 'facecolor':'None', 'lw':3, "
  ++ "'zorder':20}".
Definition kwargs_vsx : string :=
  "{'s':900, 'color':'lawngreen', 'marker':'x', 'lw':5, "
  ++ "'zorder':30}".

Definition parser : list add_argument :=
  [ {| dest := Opt.tpf_filename; type := type_str; default := VNone;
       help := "Filename of the Target Pixel File (TPF) [default: None]" |};
    {| dest := Opt.frame; type := type_int; default := VInt 0;
       help := "Frame number (integer) [default: 0]" |};
    {| dest := Opt.survey; type := type_str; default := VStr "2MASS-J";
       help := "Survey name (str) [default: '2MASS-J']" |};
    {| dest := Opt.width_height_arcmin; type := type_float;
       default := VFloat 6.0%float;
       help := "Width and height size in arcmin (float) [default: 6.0]" |};
    {| dest := Opt.shrink; type := type_float; default := VFloat 1.0%float;
       help := "Survey search radius shrink factor (float) [default: 1.0]" |};
    {| dest := Opt.show_plot; type := type_str2bool; default := VBool true;
       help := "If True, show the plot [default=True]" |};
    {| dest := Opt.plot_file; type := type_str;
       default := VStr "mkpy3_plot.png";
       help := "Filename of the output plot [default: " ++ DQ
               ++ "mkpy3_plot.png" ++ DQ ++ "]" |};
    {| dest := Opt.overwrite; type := type_str2bool; default := VBool false;
       help := "If True, overwrite (" ++ DQ ++ "clobber" ++ DQ
               ++ ") an existing output file "
               ++ "[default: False]" |};
    {| dest := Opt.figsize_str; type := type_literal_eval;
       default := VStr "[9,9]";
       help := "string of a 2-item list of figure width and height [Matplotlib] "
               ++ "(str) [default: '[9,9]'" |};
    {| dest := Opt.title; type := type_str; default := VNone;
       help := "Title of the finder chart (str) [default: None]" |};
    {| dest := Opt.percentile; type := type_float;
       default := VFloat 99.5%float;
       help := "Percentile [percentage of pixels to keep: 0.0 to 100.0] "
               ++ "(float) [default: 99.5]" |};
    {| dest := Opt.cmap; type := type_str; default := VNone;
       help := "Colormap name [Matplotlib] (str) [default: 'gray_r']" |};
    {| dest := Opt.colors_str; type := type_literal_eval;
       default := VStr "[None,'dodgerblue','red']";
       help := "string of a 3-item list of overlay color names [Matplotlib] "
               ++ "(str) [default: " ++ DQ ++ "['None','dodgerblue','red']"
               ++ DQ |};
    {| dest := Opt.lws_str; type := type_literal_eval;
       default := VStr "[0,3,4]";
       help := "string of a 3-item list of overlay line widths [Matplotlib] "
               ++ "(str) [default: " ++ DQ ++ "[0,3,4]" ++ DQ |};
    {| dest := Opt.zorders_str; type := type_literal_eval;
       default := VStr "[0,1,2]";
       help := "string of a 3-item list of overlay zorder values [Matplotlib] "
               ++ "(str) [default: " ++ DQ ++ "[0,1,2]" ++ DQ |};
    {| dest := Opt.marker_kwargs_str; type := type_literal_eval;
       default := VStr kwargs_marker;
       help := "marker kwargs (string of a dictonary) for ax.scatter() "
               ++ "[Matplotlib] " ++ "(str) [default: " ++ DQ
               ++ kwargs_marker ++ DQ |};
    {| dest := Opt.print_gaia_dr2; type := type_str2bool;
       default := VBool true;
       help := "If True, print the GAIA DR2 catalog results [default=True]" |};
    {| dest := Opt.gaia_dr2_kwargs_str; type := type_literal_eval;
       default := VStr kwargs_gaia_dr2;
       help := "GAIA DR2 marker kwargs (string of a dictonary) for ax.scatter() "
               ++ "[Matplotlib] " ++ "(str) [default: " ++ DQ
               ++ kwargs_gaia_dr2 ++ DQ |};
    {| dest := Opt.print_vsx; type := type_str2bool; default := VBool true;
       help := "If True, print the VSX catalog results [default=True]" |};
    {| dest := Opt.vsx_kwargs_str; type := type_literal_eval;
       default := VStr kwargs_vsx;
       help := "VSX marker kwargs (string of a dictonary) for ax.scatter() "
               ++ "[Matplotlib] (str) [default: '" ++ kwargs_vsx ++ "'" |};
    {| dest := Opt.sexagesimal; type := type_str2bool; default := VBool false;
       help := "Print catalog positions as sexagesimal [hms dms] if True (bool) "
               ++ "[default=False]" |};
    {| dest := Opt.verbose; type := type_str2bool; default := VBool false;
       help := "Print extra information if True (bool) [default=False]" |} ].

(** The action a destination belongs to. *)
Definition action_of (d : Opt.dest) : option add_argument :=
  find (fun a => Opt.eqb (dest a) d) parser.

(** The object [parse_args] returns.  Every attribute the script reads is
    set from the parser's defaults before anything else happens, so an
    attribute is a total function of the destination. *)
Definition Namespace : Type := Opt.dest -> pyval.

Definition setattr (ns : Namespace) (d : Opt.dest) (v : pyval) : Namespace :=
  fun d' => if Opt.eqb d' d then v else ns d'.

(** The command line as argparse's scanner hands it to the actions: each
    occurrence of an option, in the order of [sys.argv], with the
    argument string that follows it.  (How [sys.argv] is cut into
    options and arguments, abbreviations and [-h] are argparse's and not
    modelled.) *)
Definition cmdline : Type := list (Opt.dest * string).

Definition seen (d : Opt.dest) (c : cmdline) : bool :=
  existsb (fun t => Opt.eqb (fst t) d) c.

(** ** Collaborators *)

(** What the overlay script calls and does not define: the file system,
    Python's builtins, [lightkurve], the path modules and the rendering
    delegate [mkpy3_tpf_overlay_v4]. *)
Record collaborators : Type := {
  isfile : string -> bool;
  (** [int(s)] and [float(s)]; [None] when they raise [ValueError] *)
  py_int : string -> option Z;
  py_float : string -> option float;
  literal_eval : string -> outcome pyval;          (* [ast.literal_eval] *)
  py_repr : pyval -> string;                       (* [repr] *)
  lk_open : pyval -> outcome pyobject;             (* [lk.open] *)
  SearchResult : Type;
  (** [lk.search_tesscut(target, sector=...)] *)
  lk_search_tesscut : string -> Z -> outcome SearchResult;
  (** [search_result.download(cutout_size=..., quality_bitmask=...)] *)
  download : SearchResult -> Z -> Z -> outcome pyobject;
  (** [ntpath.basename] and [os.path.dirname] on a [str] *)
  ntpath_basename : string -> string;
  os_path_dirname : string -> string;
  (** the two on any other object: they return for [bytes] and for an
      [os.PathLike], and raise [TypeError] for the rest *)
  ntpath_basename_nonstr : pyval -> attribute;
  os_path_dirname_nonstr : pyval -> attribute;
  mkpy3_tpf_overlay_v4 : Kw.t -> outcome pyval
}.

Section Overlay.
Variable E : collaborators.

(** [str(v)]. *)
Definition str (v : pyval) : string :=
  match v with
  | VStr s => s
  | VNone => "None"
  | VBool true => "True"
  | VBool false => "False"
  | _ => py_repr E v
  end.

(** *** [parse_args] *)

(** [type_func(arg_string)]. *)
Definition call_type (t : type_func) (arg_string : string) : outcome pyval :=
  match t with
  | type_str => Ret (VStr arg_string)
  | type_int =>
      match py_int E arg_string with
      | Some z => Ret (VInt z)
      | None => Raise ValueError
      end
  | type_float =>
      match py_float E arg_string with
      | Some f => Ret (VFloat f)
      | None => Raise ValueError
      end
  | type_str2bool =>
      match str2bool arg_string with
      | Ret b => Ret (VBool b)
      | Raise e => Raise e
      | Exit n => Exit n
      end
  | type_literal_eval => literal_eval E arg_string
  end.

(** [parser.error]: usage and message on stderr, exit status 2. *)
Definition error {A} (d : Opt.dest) (message : string) : M A :=
  ([ArgparseError (Opt.flag d) message], Exit 2).

(** argparse's [_get_value]: an [ArgumentTypeError], a [TypeError] or
    a [ValueError] of the type function becomes a parser error, any
    other exception goes on. *)
Definition get_value (a : add_argument) (arg_string : string) : M pyval :=
  match call_type (type a) arg_string with
  | Ret v => ret v
  | Raise (ArgumentTypeError m) => error (dest a) m
  | Raise TypeError | Raise ValueError =>
      error (dest a)
            ("invalid " ++ type_name (type a) ++ " value: "
             ++ py_repr E (VStr arg_string))
  | Raise e => raise e
  | Exit n => sys_exit n
  end.

(** Before the command line is read every attribute has its action's
    default. *)
Definition initial_namespace : Namespace :=
  fold_left (fun ns a => setattr ns (dest a) (default a)) parser
            (fun _ => VNone).

(** The options present, in order: each one's argument is converted
    and stored. *)
Fixpoint take_options (c : cmdline) (ns : Namespace) : M Namespace :=
  match c with
  | [] => ret ns
  | (d, arg_string) :: c' =>
      match action_of d with
      | Some a =>
          v <- get_value a arg_string ;;
          take_options c' (setattr ns d v)
      | None => error d "unrecognized arguments"
      end
  end.

(** Then the actions that were not seen: a default that is a string is
    converted by the action's type as an argument would be. *)
Fixpoint convert_defaults (actions : list add_argument) (c : cmdline)
         (ns : Namespace) : M Namespace :=
  match actions with
  | [] => ret ns
  | a :: actions' =>
      if seen (dest a) c then convert_defaults actions' c ns
      else
        match default a with
        | VStr s =>
            v <- get_value a s ;;
            convert_defaults actions' c (setattr ns (dest a) v)
        | _ => convert_defaults actions' c ns
        end
  end.

Definition parse_args (c : cmdline) : M Namespace :=
  ns <- take_options c initial_namespace ;;
  convert_defaults parser c ns.

(** *** The main block *)

Definition mkpy3_tess_tpf_overlay_v3 (kw : Kw.t) : M pyval :=
  ([Overlay kw], mkpy3_tpf_overlay_v4 E kw).

Definition is_not_None (v : pyval) : bool :=
  match v with VNone => false | _ => true end.

(** [v == s] for a string [s]. *)
Definition eq_str (v : pyval) (s : string) : bool :=
  match v with VStr s' => String.eqb s' s | _ => false end.

(** [v *= f] for a float [f].  The script applies it to [args.shrink],
    which is a float whenever [parse_args] returns; on the operand
    types that a float cannot be multiplied with Python raises
    [TypeError]. *)
Definition imul_float (v : pyval) (f : float) : outcome pyval :=
  match v with
  | VFloat x => Ret (VFloat (x * f)%float)
  | _ => Raise TypeError
  end.

(** The result of a library function as an outcome. *)
Definition returned (a : attribute) : outcome pyval :=
  match a with
  | Has v => Ret v
  | Fails e => Raise e
  end.

(** [ntpath.basename(p)] and [os.path.dirname(p)]: a [str] for a
    [str], and what the library does for any other object. *)
Definition basename (p : pyval) : outcome pyval :=
  match p with
  | VStr s => Ret (VStr (ntpath_basename E s))
  | _ => returned (ntpath_basename_nonstr E p)
  end.

Definition dirname (p : pyval) : outcome pyval :=
  match p with
  | VStr s => Ret (VStr (os_path_dirname E s))
  | _ => returned (os_path_dirname_nonstr E p)
  end.

(** 0.8, the nearest double. *)
Definition f0_8 : float := 0x1.999999999999ap-1%float.

(** Lines 365-382: where the TPF comes from.  Returns [tpf], [shrink]
    and [title] as they stand afterwards. *)
Definition acquire_tpf (tpf_filename shrink title : pyval)
  : M (pyobject * pyval * pyval) :=
  if is_not_None tpf_filename then
    check_file_exists (isfile E) as_script tpf_filename (VBool true) ;;
    tpf <- lift (lk_open E tpf_filename) ;;
    ret (tpf, shrink, title)
  else
    print ("No TargetPixelFile (TPF) filename given." ++ LF) ;;
    search_result <- lift (lk_search_tesscut E "XZ Cyg" 14) ;;
    tpf <- lift (download E search_result 10 0) ;;
    print "" ;;
    print ("Using default 10x10 TPF cutout of TESS Sector 14 "
           ++ "observations of XZ Cyg.") ;;
    print "" ;;
    shrink <- lift (imul_float shrink f0_8) ;;
    ret (tpf, shrink, VStr "XZ Cyg : TESS : Sector 14").

(** Lines 383-395: the check that the product is a TESS one; first
    the suite of the [try], then that of the [except]. *)
Definition try_suite (tpf : pyobject) : M unit :=
  p <- getattr (path tpf) ;;
  b <- lift (basename p) ;;
  print ("TPF filename: " ++ str b) ;;
  p <- getattr (path tpf) ;;
  d <- lift (dirname p) ;;
  print ("TPF dirname:  " ++ str d) ;;
  m <- getattr (mission tpf) ;;
  assert (eq_str m "TESS") ;;
  print "".

Definition except_suite (tpf_filename : pyval) : M unit :=
  print (str tpf_filename ++ " =tpf_filename") ;;
  print ("^--- *** ERROR *** This file does not appear to be a TESS "
         ++ "TargetPixelFile") ;;
  print "" ;;
  print ("Bye..." ++ LF) ;;
  sys_exit 1.

Definition check_tess (tpf : pyobject) (tpf_filename : pyval) : M unit :=
  try_except (try_suite tpf) (except_suite tpf_filename).

(** Lines 342-420: the main block once the command line is parsed. *)
Definition main_body (args : Namespace) : M unit :=
  let tpf_filename := args Opt.tpf_filename in
  let frame := args Opt.frame in
  let survey := args Opt.survey in
  let width_height_arcmin := args Opt.width_height_arcmin in
  let shrink := args Opt.shrink in
  let show_plot := args Opt.show_plot in
  let plot_file := args Opt.plot_file in
  let overwrite := args Opt.overwrite in
  let figsize_str := VStr (str (args Opt.figsize_str)) in
  let title := args Opt.title in
  let percentile := args Opt.percentile in
  let cmap := args Opt.cmap in
  let colors_str := VStr (str (args Opt.colors_str)) in
  let lws_str := VStr (str (args Opt.lws_str)) in
  let zorders_str := VStr (str (args Opt.zorders_str)) in
  let marker_kwargs_str := VStr (str (args Opt.marker_kwargs_str)) in
  let print_gaia_dr2 := args Opt.print_gaia_dr2 in
  let gaia_dr2_kwargs_str := VStr (str (args Opt.gaia_dr2_kwargs_str)) in
  let print_vsx := args Opt.print_vsx in
  let vsx_kwargs_str := VStr (str (args Opt.vsx_kwargs_str)) in
  let sexagesimal := args Opt.sexagesimal in
  let verbose := args Opt.verbose in
  print "" ;;
  r <- acquire_tpf tpf_filename shrink title ;;
  let '(tpf, shrink, title) := r in
  check_tess tpf tpf_filename ;;
  ax <- mkpy3_tess_tpf_overlay_v3
          {| Kw.tpf := tpf;
             Kw.frame := frame;
             Kw.survey := survey;
             Kw.width_height_arcmin := width_height_arcmin;
             Kw.shrink := shrink;
             Kw.show_plot := show_plot;
             Kw.plot_file := plot_file;
             Kw.overwrite := overwrite;
             Kw.figsize_str := figsize_str;
             Kw.title := title;
             Kw.percentile := percentile;
             Kw.cmap := cmap;
             Kw.colors_str := colors_str;
             Kw.lws_str := lws_str;
             Kw.zorders_str := zorders_str;
             Kw.marker_kwargs_str := marker_kwargs_str;
             Kw.print_gaia_dr2 := print_gaia_dr2;
             Kw.gaia_dr2_kwargs_str := gaia_dr2_kwargs_str;
             Kw.print_vsx := print_vsx;
             Kw.vsx_kwargs_str := vsx_kwargs_str;
             Kw.sexagesimal := sexagesimal;
             Kw.verbose := verbose |} ;;
  ret tt.

Definition main (c : cmdline) : M unit :=
  args <- parse_args c ;;
  main_body args.
End Overlay.

(** *** What the properties of the main block speak of *)

(** The script gets [tpf]: from [lk.open] when a file name was given,
    from the search for the default target when none was. *)
Definition obtains (E : collaborators) (tpf_filename : pyval)
           (tpf : pyobject) : Prop :=
  match tpf_filename with
  | VNone =>
      exists search_result,
        lk_search_tesscut E "XZ Cyg" 14 = Ret search_result
        /\ download E search_result 10 0 = Ret tpf
  | _ => lk_open E tpf_filename = Ret tpf
  end.

(** [tpf] is a readable TESS product: it has a path, and its mission is
    TESS. *)
Definition readable_tess (tpf : pyobject) : Prop :=
  exists p, path tpf = Has (VStr p) /\ mission tpf = Has (VStr "TESS").

(** [tpf] passes the check of lines 383-395: its path is one that
    [ntpath.basename] and [os.path.dirname] accept, and its mission is
    TESS. *)
Definition passes_tess_check (E : collaborators) (tpf : pyobject) : Prop :=
  exists p b d,
    path tpf = Has p
    /\ basename E p = Ret b
    /\ dirname E p = Ret d
    /\ mission tpf = Has (VStr "TESS").

(** [tpf] is not a TESS product, or cannot be read. *)
Definition not_tess (tpf : pyobject) : Prop :=
  (exists e, path tpf = Fails e)
  \/ (exists e, mission tpf = Fails e)
  \/ (exists m, mission tpf = Has m /\ m <> VStr "TESS").

(** The keyword arguments of the call on lines 397-420, from the parsed
    arguments and from [tpf], [shrink] and [title] as they stand after
    lines 365-382. *)
Definition call_kwargs (E : collaborators) (args : Namespace)
           (tpf : pyobject) (shrink title : pyval) : Kw.t :=
  {| Kw.tpf := tpf;
     Kw.frame := args Opt.frame;
     Kw.survey := args Opt.survey;
     Kw.width_height_arcmin := args Opt.width_height_arcmin;
     Kw.shrink := shrink;
     Kw.show_plot := args Opt.show_plot;
     Kw.plot_file := args Opt.plot_file;
     Kw.overwrite := args Opt.overwrite;
     Kw.figsize_str := VStr (str E (args Opt.figsize_str));
     Kw.title := title;
     Kw.percentile := args Opt.percentile;
     Kw.cmap := args Opt.cmap;
     Kw.colors_str := VStr (str E (args Opt.colors_str));
     Kw.lws_str := VStr (str E (args Opt.lws_str));
     Kw.zorders_str := VStr (str E (args Opt.zorders_str));
     Kw.marker_kwargs_str := VStr (str E (args Opt.marker_kwargs_str));
     Kw.print_gaia_dr2 := args Opt.print_gaia_dr2;
     Kw.gaia_dr2_kwargs_str := VStr (str E (args Opt.gaia_dr2_kwargs_str));
     Kw.print_vsx := args Opt.print_vsx;
     Kw.vsx_kwargs_str := VStr (str E (args Opt.vsx_kwargs_str));
     Kw.sexagesimal := args Opt.sexagesimal;
     Kw.verbose := args Opt.verbose |}.

(** The message of the TESS check. *)
Definition not_tess_message : string :=
  "*** ERROR *** This file does not appear to be a TESS TargetPixelFile".

(** ** The test runner, [check_mkpy3_v5.py] *)

Module check_mkpy3_v5.

(** [str.strip()] on the bytes of a string: the ASCII white space. *)
Definition isspace (c : ascii) : bool :=
  let n := nat_of_ascii c in
  (((9 <=? n) && (n <=? 13)) || ((28 <=? n) && (n <=? 32)))%nat.

Fixpoint lstrip (s : string) : string :=
  match s with
  | String c s' => if isspace c then lstrip s' else s
  | EmptyString => EmptyString
  end.

Fixpoint rstrip (s : string) : string :=
  match s with
  | String c s' =>
      match rstrip s' with
      | EmptyString => if isspace c then EmptyString else String c EmptyString
      | t => String c t
      end
  | EmptyString => EmptyString
  end.

Definition strip (s : string) : string := rstrip (lstrip s).

(** ['%d' % z]. *)
Definition fmt_d (z : Z) : string := NilZero.string_of_int (Z.to_int z).

(** ASCII color codes. *)
Definition ESC : string := String (ascii_of_nat 27) EmptyString.
Definition CEND : string := ESC ++ "[0m".
Definition CRED : string := ESC ++ "[31m".

(** What [subprocess.run(..., capture_output=True)] returns. *)
Record CompletedProcess : Type := {
  returncode : Z;
  stdout : string;
  stderr : string
}.

(** The command run for a script: no argument follows its name. *)
Definition command (name : string) : list string := ["python3"; name].

Section Runner.
(** The machine the children run on, and [subprocess.run] on it: the
    child is started, waited for, and its result returned (or the
    call raises, when the child cannot be started). *)
Variable World : Type.
Variable subprocess_run :
  list string -> World -> World * outcome CompletedProcess.

(** The variables of the script, the text it has printed and the
    commands it has run. *)
Record state : Type := {
  world : World;
  good : Z;
  bad : Z;
  printed : string;
  commands : list (list string)
}.

(** [print(s, end=e)]. *)
Definition echo (s e : string) (st : state) : state :=
  {| world := world st; good := good st; bad := bad st;
     printed := printed st ++ s ++ e; commands := commands st |}.

(** The body of the loop, for the [k]-th script [name]. *)
Definition body (k : Z) (name : string) (st : state)
  : state * outcome unit :=
  let st := echo ("[" ++ fmt_d k ++ "] " ++ strip name ++ " : ") "" st in
  let cmd := command name in
  let (w, r) := subprocess_run cmd (world st) in
  let st := {| world := w; good := good st; bad := bad st;
               printed := printed st;
               commands := (commands st ++ [cmd])%list |} in
  match r with
  | Ret result =>
      let returncode := returncode result in
      if negb (returncode =? 0) then
        let st := {| world := world st; good := good st;
                     bad := bad st + 1; printed := printed st;
                     commands := commands st |} in
        let st := echo (CRED ++ "***** ERROR FOUND *****" ++ CEND) LF st in
        (echo "" LF st, Ret tt)
      else
        let st := {| world := world st; good := good st + 1;
                     bad := bad st; printed := printed st;
                     commands := commands st |} in
        (echo "OK" LF st, Ret tt)
  | Raise e => (st, Raise e)
  | Exit n => (st, Exit n)
  end.

(** [for k, name in enumerate(filel, start=k): body]. *)
Fixpoint loop (k : Z) (filel : list string) (st : state)
  : state * outcome unit :=
  match filel with
  | [] => (st, Ret tt)
  | name :: filel' =>
      match body k name st with
      | (st', Ret _) => loop (k + 1) filel' st'
      | stop => stop
      end
  end.

(** Lines 28-36: the counters are set and the header is printed.
    [cwd] is the working directory and [filel] the sorted result of
    [glob.glob('./mkpy3*.py')]. *)
Definition prologue (cwd : string) (filel : list string) (w : World)
  : state :=
  let st := {| world := w; good := 0; bad := 0; printed := "";
               commands := [] |} in
  let st := echo (cwd ++ " " ++ " =$PWD") LF st in
  let sz := Z.of_nat (List.length filel) in
  let st := echo "" LF st in
  let st := echo (fmt_d sz ++ " " ++ "files to check") LF st in
  echo "" LF st.

(** Lines 50-56: the summary. *)
Definition epilogue (sz : Z) (st : state) : state :=
  let st := echo "" LF st in
  let st :=
    if good st =? sz then
      echo (LF ++ "All " ++ fmt_d (good st) ++ " files PASS  :-)") LF st
    else
      echo (fmt_d (bad st) ++ " of " ++ fmt_d sz ++ " files FAIL  8=X")
           LF st in
  echo "" LF st.

Definition main (cwd : string) (filel : list string) (w : World)
  : state * outcome unit :=
  let sz := Z.of_nat (List.length filel) in
  match loop 1 filel (prologue cwd filel w) with
  | (st, Ret _) => (epilogue sz st, Ret tt)
  | stop => stop
  end.
End Runner.

Arguments world {World}.
Arguments good {World}.
Arguments bad {World}.
Arguments printed {World}.
Arguments commands {World}.
Arguments echo {World}.
Arguments body {World}.
Arguments loop {World}.
Arguments prologue {World}.
Arguments epilogue {World}.
Arguments main {World}.
End check_mkpy3_v5.

(** ** A sample environment *)

(** Concrete collaborators to run the scripts on: a file system with
    three files, conversions that know the literals used below, a [lightkurve]
    that opens one TESS and one Kepler product, and a delegate that
    returns [None]. *)
Module Sample.

Fixpoint join (sep : string) (l : list string) : string :=
  match l with
  | [] => ""
  | [x] => x
  | x :: l' => x ++ sep ++ join sep l'
  end.

(** [repr] on the values of the defaults (strings without quotes or
    escapes, integers, [None], lists and dictionaries of these). *)
Fixpoint repr (v : pyval) : string :=
  match v with
  | VNone => "None"
  | VBool true => "True"
  | VBool false => "False"
  | VInt z => check_mkpy3_v5.fmt_d z
  | VFloat _ => "<float>"
  | VStr s => "'" ++ s ++ "'"
  | VList l => "[" ++ join ", " (map repr l) ++ "]"
  | VTuple l => "(" ++ join ", " (map repr l) ++ ")"
  | VDict l =>
      "{" ++ join ", "
               (map (fun kv : pyval * pyval =>
                      let (k, x) := kv in repr k ++ ": " ++ repr x) l)
          ++ "}"
  | VObject cls => "<" ++ cls ++ ">"
  end.

Definition marker (edgecolor : string) (s zorder : Z) : pyval :=
  VDict [ (VStr "edgecolor", VStr edgecolor); (VStr "s", VInt s);
          (VStr "facecolor", VStr "None"); (VStr "lw", VInt 3);
          (VStr "zorder", VInt zorder) ].

Definition table {A} (t : list (string * A)) (s : string) : option A :=
  match find (fun e => String.eqb (fst e) s) t with
  | Some e => Some (snd e)
  | None => None
  end.

Definition literals : list (string * pyval) :=
  [ ("[9,9]", VList [VInt 9; VInt 9]);
    ("[None,'dodgerblue','red']",
     VList [VNone; VStr "dodgerblue"; VStr "red"]);
    ("[0,3,4]", VList [VInt 0; VInt 3; VInt 4]);
    ("[0,1,2]", VList [VInt 0; VInt 1; VInt 2]);
    (kwargs_marker, marker "yellow" 600 10);
    (kwargs_gaia_dr2, marker "cyan" 150 20);
    (kwargs_vsx,
     VDict [ (VStr "s", VInt 900); (VStr "color", VStr "lawngreen");
             (VStr "marker", VStr "x"); (VStr "lw", VInt 5);
             (VStr "zorder", VInt 30) ]);
    ("None", VNone) ].

Definition floats : list (string * float) :=
  [ ("150.0", 150.0%float); ("-0.5", (-0.5)%float); ("2.5", 2.5%float);
    ("0.5", 0.5%float) ].

Definition ints : list (string * Z) := [ ("0", 0); ("3", 3); ("-1", -1) ].

Definition tess : pyobject :=
  {| path := Has (VStr "tess.fits"); mission := Has (VStr "TESS") |}.

Definition kepler : pyobject :=
  {| path := Has (VStr "kepler.fits"); mission := Has (VStr "Kepler") |}.

Definition env : collaborators :=
  {| isfile := fun p => String.eqb p "out.png" || String.eqb p "tess.fits"
                        || String.eqb p "kepler.fits";
     py_int := table ints;
     py_float := table floats;
     literal_eval := fun s =>
       match table literals s with
       | Some v => Ret v
       | None => Raise SyntaxError
       end;
     py_repr := repr;
     lk_open := fun f =>
       match f with
       | VStr "tess.fits" => Ret tess
       | VStr "kepler.fits" => Ret kepler
       | _ => Raise (OtherError "FileNotFoundError")
       end;
     SearchResult := unit;
     lk_search_tesscut := fun _ _ => Ret tt;
     download := fun _ _ _ => Ret tess;
     ntpath_basename := fun s => s;
     os_path_dirname := fun _ => "";
     ntpath_basename_nonstr := fun p =>
       match p with
       | VObject "PosixPath" => Has (VStr "tess.fits")
       | _ => Fails TypeError
       end;
     os_path_dirname_nonstr := fun p =>
       match p with
       | VObject "PosixPath" => Has (VStr "")
       | _ => Fails TypeError
       end;
     mkpy3_tpf_overlay_v4 := fun _ => Ret VNone |}.

(** A machine on which a child's exit code is the length of its
    script's name minus 12 (so [./mkpy3_a.py] passes). *)
Definition run (cmd : list string) (w : nat)
  : nat * outcome check_mkpy3_v5.CompletedProcess :=
  (S w,
   Ret {| check_mkpy3_v5.returncode :=
            Z.of_nat (String.length (nth 1%nat cmd "")) - 12;
          check_mkpy3_v5.stdout := "";
          check_mkpy3_v5.stderr := "" |}).

Definition scripts : list string :=
  ["./mkpy3_a.py"; "./mkpy3_bb.py"; "./mkpy3_c.py"].
End Sample.

(** ** The check of the local setup *)

(** Lines 17-35, run when the overlay script is loaded: the version of
    the interpreter ([sys.version_info.major] and [.minor]) and the
    import of [lightkurve], whose outcome is [import_lightkurve]. *)
Definition check_local_setup (major minor : Z)
           (import_lightkurve : outcome unit) : M unit :=
  let pyver := (major * 10) + minor in
  (if pyver <? 27 then
     print "*** ERROR *** Needs Python 2.7 or higher." ;;
     sys_exit 1
   else ret tt) ;;
  try_except
    (lift import_lightkurve)
    (print (LF ++ "***** ERROR *****" ++ LF) ;;
     print ("The Python package lightkurve needs to be installed." ++ LF) ;;
     print ("This is the installation command for lightkurve using pip:"
            ++ LF) ;;
     print ("pip install lightkurve --upgrade" ++ LF) ;;
     print ("For further installation details see the lightkurve homepage:"
            ++ LF) ;;
     print ("https://docs.lightkurve.org/about/install.html" ++ LF) ;;
     sys_exit 1).

(** The overlay script from its first line: the check of the setup, then
    the main block. *)
Definition script (E : collaborators) (major minor : Z)
           (import_lightkurve : outcome unit) (c : cmdline) : M unit :=
  check_local_setup major minor import_lightkurve ;;
  main E c.

(** *** What the further properties speak of *)

(** The argument of the last occurrence of an option on the command
    line. *)
Fixpoint last_arg (d : Opt.dest) (c : cmdline) : option string :=
  match c with
  | [] => None
  | (d0, s) :: c' =>
      match last_arg d c' with
      | Some s' => Some s'
      | None => if Opt.eqb d0 d then Some s else None
      end
  end.

(** The values a type function returns. *)
Definition has_type (t : type_func) (v : pyval) : Prop :=
  match t with
  | type_str => exists s, v = VStr s
  | type_int => exists z, v = VInt z
  | type_float => exists x, v = VFloat x
  | type_str2bool => exists b, v = VBool b
  | type_literal_eval => True
  end.

(** The keyword of the delegate that bears the name of an option;
    [--tpf_filename] has none (the delegate gets [tpf]). *)
Definition keyword (d : Opt.dest) (kw : Kw.t) : option pyval :=
  match d with
  | Opt.tpf_filename => None
  | Opt.frame => Some (Kw.frame kw)
  | Opt.survey => Some (Kw.survey kw)
  | Opt.width_height_arcmin => Some (Kw.width_height_arcmin kw)
  | Opt.shrink => Some (Kw.shrink kw)
  | Opt.show_plot => Some (Kw.show_plot kw)
  | Opt.plot_file => Some (Kw.plot_file kw)
  | Opt.overwrite => Some (Kw.overwrite kw)
  | Opt.figsize_str => Some (Kw.figsize_str kw)
  | Opt.title => Some (Kw.title kw)
  | Opt.percentile => Some (Kw.percentile kw)
  | Opt.cmap => Some (Kw.cmap kw)
  | Opt.colors_str => Some (Kw.colors_str kw)
  | Opt.lws_str => Some (Kw.lws_str kw)
  | Opt.zorders_str => Some (Kw.zorders_str kw)
  | Opt.marker_kwargs_str => Some (Kw.marker_kwargs_str kw)
  | Opt.print_gaia_dr2 => Some (Kw.print_gaia_dr2 kw)
  | Opt.gaia_dr2_kwargs_str => Some (Kw.gaia_dr2_kwargs_str kw)
  | Opt.print_vsx => Some (Kw.print_vsx kw)
  | Opt.vsx_kwargs_str => Some (Kw.vsx_kwargs_str kw)
  | Opt.sexagesimal => Some (Kw.sexagesimal kw)
  | Opt.verbose => Some (Kw.verbose kw)
  end.

(** A trace of text only: printed lines and parser errors, no look at
    the file system and no call of the delegate. *)
Definition text_only (tr : list event) : Prop :=
  Forall (fun ev => match ev with
                    | Stdout _ | ArgparseError _ _ => True
                    | IsFile _ | Overlay _ => False
                    end) tr.

(** The scripts of [filel] whose child ends with a code that is, or is
    not, zero, when the result of a child depends on its command only. *)
Definition passing (res : list string -> check_mkpy3_v5.CompletedProcess)
           (filel : list string) : list string :=
  filter (fun name =>
            check_mkpy3_v5.returncode (res (check_mkpy3_v5.command name)) =? 0)
         filel.

Definition failing (res : list string -> check_mkpy3_v5.CompletedProcess)
           (filel : list string) : list string :=
  filter (fun name =>
            negb (check_mkpy3_v5.returncode
                    (res (check_mkpy3_v5.command name)) =? 0))
         filel.

(** The sample environment with a search that finds nothing:
    [download] returns [None]. *)
Definition no_result_env : collaborators :=
  {| isfile := isfile Sample.env;
     py_int := py_int Sample.env;
     py_float := py_float Sample.env;
     literal_eval := literal_eval Sample.env;
     py_repr := py_repr Sample.env;
     lk_open := lk_open Sample.env;
     SearchResult := unit;
     lk_search_tesscut := fun _ _ => Ret tt;
     download := fun _ _ _ => Ret None_object;
     ntpath_basename := ntpath_basename Sample.env;
     os_path_dirname := os_path_dirname Sample.env;
     ntpath_basename_nonstr := ntpath_basename_nonstr Sample.env;
     os_path_dirname_nonstr := os_path_dirname_nonstr Sample.env;
     mkpy3_tpf_overlay_v4 := mkpy3_tpf_overlay_v4 Sample.env |}.

(** The result of a child on the sample machine, and that machine with
    one script that cannot be started. *)
Definition sample_result (cmd : list string)
  : check_mkpy3_v5.CompletedProcess :=
  {| check_mkpy3_v5.returncode :=
       Z.of_nat (String.length (nth 1%nat cmd "")) - 12;
     check_mkpy3_v5.stdout := "";
     check_mkpy3_v5.stderr := "" |}.

Definition run_without (missing : string) (cmd : list string) (w : nat)
  : nat * outcome check_mkpy3_v5.CompletedProcess :=
  if String.eqb (nth 1%nat cmd "") missing
  then (S w, Raise (OtherError "PermissionError"))
  else Sample.run cmd w.

(** * Properties *)

(** ** The monad *)

Lemma bind_ret_l {A B} (a : A) (k : A -> M B) : bind (ret a) k = k a.
Proof. unfold bind, ret. destruct (k a); reflexivity. Qed.

Lemma bind_Ret_inv {A B} (m : M A) (k : A -> M B) tr (b : B) :
  bind m k = (tr, Ret b) ->
  exists tr1 a tr2, m = (tr1, Ret a) /\ k a = (tr2, Ret b)
                    /\ tr = (tr1 ++ tr2)%list.
Proof.
  destruct m as [tr1 [a | e | n]]; simpl; try discriminate.
  destruct (k a) as [tr2 o] eqn:Hk. intros H. inversion H; subst.
  exists tr1, a, tr2. auto.
Qed.

Lemma bind_Ret {A B} (m : M A) (k : A -> M B) tr1 a :
  m = (tr1, Ret a) ->
  bind m k = ((tr1 ++ fst (k a))%list, snd (k a)).
Proof. intros ->. simpl. destruct (k a); reflexivity. Qed.

(** ** The output guard *)

Section GuardProperties.
Variable isfile : string -> bool.

(** In the script, where [os] and [sys] are bound: with
    [overwrite=False] and a regular file at the path, the guard looks
    the path up once and ends the process with status 1, after printing
    a message that contains "already exists". *)
Lemma as_script_aborts (filename : string) :
  isfile filename = true ->
  let r := check_file_exists isfile as_script (VStr filename) (VBool false) in
  snd r = Exit 1
  /\ exit_status (snd r) = 1
  /\ isfile_queries (fst r) = [filename]
  /\ contains (stdout_of (fst r)) "already exists".
Proof.
  intros Hf. unfold check_file_exists, os_path_isfile. simpl.
  rewrite Hf. simpl. repeat split.
  exists (LF ++ "***** ERROR *****" ++ LF ++ LF ++ "Requested output file ").
  eexists. simpl. reflexivity.
Qed.

(** In the script as well: the guard returns, having printed nothing,
    when no file is at the path. *)
Lemma as_script_returns (filename : string) (overwrite : bool) :
  overwrite = true \/ isfile filename = false ->
  let r := check_file_exists isfile as_script (VStr filename)
                             (VBool overwrite) in
  snd r = Ret tt /\ stdout_of (fst r) = "".
Proof.
  intros [-> | Hf]; unfold check_file_exists, os_path_isfile; simpl.
  - split; reflexivity.
  - destruct overwrite; simpl; [split; reflexivity|].
    rewrite Hf. simpl. split; reflexivity.
Qed.

(** C1: on the module as imported, where the name [os] is not bound,
    the guard called with [overwrite=False] raises [NameError] at
    [os.path.isfile], whether the file exists or not: it prints nothing
    and does not exit.  In the script, where the main block has bound
    [os] and [sys], it exits with status 1 exactly when the file
    exists. *)
Theorem check_file_exists_imported (filename : string) :
  check_file_exists isfile as_module (VStr filename) (VBool false)
  = ([], Raise NameError)
  /\ snd (check_file_exists isfile as_script (VStr filename) (VBool false))
     = (if isfile filename then Exit 1 else Ret tt).
Proof.
  split; [reflexivity|].
  unfold check_file_exists, os_path_isfile. simpl.
  destruct (isfile filename); reflexivity.
Qed.

(** C3: with [overwrite=True] the guard returns, with no event, whatever
    names are bound.  With [overwrite=False] on the module as imported
    it does not return, also when no file is at the path: the lookup of
    [os] raises first. *)
Theorem check_file_exists_returns (g : globals) (filename : string) :
  check_file_exists isfile g (VStr filename) (VBool true) = ([], Ret tt)
  /\ snd (check_file_exists isfile as_module (VStr filename) (VBool false))
     <> Ret tt.
Proof.
  split; [reflexivity | discriminate].
Qed.

(** C10: a [filename] that is not a [str] or an [overwrite] that is
    not a [bool] raises [AssertionError] before any event (no look at
    the file system, nothing printed, no exit), whatever names are
    bound; on a [str] and a [bool] no assertion fires, and in the
    script, where [os] and [sys] are bound, no exception at all is
    raised. *)
Theorem check_file_exists_asserts (g : globals) (filename overwrite : pyval) :
  (isinstance_str filename = false \/ isinstance_bool overwrite = false ->
   check_file_exists isfile g filename overwrite = ([], Raise AssertionError))
  /\ (isinstance_str filename = true ->
      isinstance_bool overwrite = true ->
      snd (check_file_exists isfile g filename overwrite)
      <> Raise AssertionError
      /\ forall e,
          snd (check_file_exists isfile as_script filename overwrite)
          <> Raise e).
Proof.
  split.
  - intros [H | H]; unfold check_file_exists.
    + rewrite H. reflexivity.
    + destruct (isinstance_str filename); [rewrite H|]; reflexivity.
  - intros Hs Hb.
    destruct filename; try discriminate Hs.
    destruct overwrite as [ | b | | | | | | | ]; try discriminate Hb.
    unfold check_file_exists, os_path_isfile, global_name; simpl.
    destruct b; simpl; [split; [discriminate | intros e; discriminate]|].
    split.
    + destruct (os_bound g); simpl; [| discriminate].
      destruct (isfile s); simpl; [| discriminate].
      destruct (sys_bound g); simpl; discriminate.
    + intros e. destruct (isfile s); simpl; discriminate.
Qed.
End GuardProperties.

Lemma check_file_exists_asserts_witness :
  check_file_exists (isfile Sample.env) as_module (VInt 1) (VBool false)
  = ([], Raise AssertionError)
  /\ check_file_exists (isfile Sample.env) as_script (VStr "out.png") (VInt 0)
     = ([], Raise AssertionError)
  /\ snd (check_file_exists (isfile Sample.env) as_module (VStr "out.png")
                            (VBool false))
     <> Raise AssertionError
  /\ snd (check_file_exists (isfile Sample.env) as_script (VStr "out.png")
                            (VBool true))
     <> Raise TypeError.
Proof.
  split; [| split; [| split]].
  - exact (proj1 (check_file_exists_asserts (isfile Sample.env) as_module
                    (VInt 1) (VBool false)) (or_introl eq_refl)).
  - exact (proj1 (check_file_exists_asserts (isfile Sample.env) as_script
                    (VStr "out.png") (VInt 0)) (or_intror eq_refl)).
  - exact (proj1 (proj2 (check_file_exists_asserts (isfile Sample.env)
                           as_module (VStr "out.png") (VBool false))
                        eq_refl eq_refl)).
  - exact (proj2 (proj2 (check_file_exists_asserts (isfile Sample.env)
                           as_module (VStr "out.png") (VBool true))
                        eq_refl eq_refl) TypeError).
Defined.

(** ** The boolean parser *)

Lemma str_in_In (x : string) (t : list string) :
  str_in x t = true <-> In x t.
Proof.
  unfold str_in. rewrite existsb_exists. split.
  - intros (y & Hy & He). apply String.eqb_eq in He. now subst.
  - intros H. exists x. split; [assumption | apply String.eqb_refl].
Qed.

Lemma lower_upper_ascii (c : ascii) :
  lower_ascii (upper_ascii c) = lower_ascii c.
Proof.
  destruct c as [[] [] [] [] [] [] [] []]; reflexivity.
Qed.

Lemma same_letter_lower (a b : ascii) :
  same_letter a b -> lower_ascii a = lower_ascii b.
Proof.
  intros [-> | [-> | ->]]; auto using lower_upper_ascii.
Qed.

Lemma recase_lower (v w : string) : recase v w -> lower v = lower w.
Proof.
  induction 1 as [| a b s t Hab _ IH]; simpl.
  - reflexivity.
  - rewrite (same_letter_lower _ _ Hab), IH. reflexivity.
Qed.

Ltac solve_recase :=
  repeat first
    [ apply recase_nil
    | apply recase_cons;
      [ first [ left; reflexivity
              | right; left; reflexivity
              | right; right; reflexivity ] | ] ].






(** ** The test runner *)

Section RunnerProperties.
Import check_mkpy3_v5.
Variable World : Type.
Variable run : list string -> World -> World * outcome CompletedProcess.

Lemma body_inv k name (st : state World) :
  let r := body run k name st in
  commands (fst r) = (commands st ++ [command name])%list
  /\ match snd r with
     | Ret _ => good (fst r) + bad (fst r) = good st + bad st + 1
     | _ => good (fst r) = good st /\ bad (fst r) = bad st
     end.
Proof.
  unfold body. cbn -[fmt_d strip].
  destruct (run _ _) as [w [res | e | n]]; cbn -[fmt_d strip];
    try (split; [reflexivity | split; reflexivity]).
  destruct (returncode res =? 0); cbn; split; try reflexivity; lia.
Qed.

Lemma loop_app l1 l2 : forall k st,
  loop run k (l1 ++ l2) st =
  match loop run k l1 st with
  | (st1, Ret _) => loop run (k + Z.of_nat (List.length l1)) l2 st1
  | stop => stop
  end.
Proof.
  induction l1 as [| name l1 IH]; intros k st.
  - simpl. f_equal. lia.
  - cbn [loop app List.length].
    destruct (body run k name st) as [st' [u | e | n]]; try reflexivity.
    rewrite IH. replace (k + 1 + Z.of_nat (List.length l1))
      with (k + Z.of_nat (S (List.length l1))) by lia.
    reflexivity.
Qed.

Lemma loop_inv l : forall k st st' u,
  loop run k l st = (st', Ret u) ->
  good st' + bad st' = good st + bad st + Z.of_nat (List.length l)
  /\ commands st' = (commands st ++ map command l)%list.
Proof.
  induction l as [| name l IH]; intros k st st' u H.
  - simpl in H. inversion H; subst. simpl. rewrite app_nil_r. split; [lia | reflexivity].
  - cbn [loop] in H.
    pose proof (body_inv k name st) as [Hc Hb].
    destruct (body run k name st) as [st1 [u1 | e | n]]; try discriminate H.
    cbn [fst snd] in Hc, Hb.
    destruct (IH _ _ _ _ H) as [Hg Hcmd]. split.
    + cbn [List.length]. lia.
    + rewrite Hcmd, Hc, <- app_assoc. reflexivity.
Qed.

Lemma epilogue_counts sz (st : state World) :
  good (epilogue sz st) = good st /\ bad (epilogue sz st) = bad st.
Proof.
  unfold epilogue. cbn -[fmt_d].
  destruct (good st =? sz); split; reflexivity.
Qed.

(** C5: after every iteration of the loop the pass count plus the fail
    count is the number of scripts run so far (the iterations done),
    and when the loop is over it is the number of discovered
    scripts. *)
Theorem good_plus_bad (cwd : string) (filel : list string) (w : World) :
  (forall done rest st,
      filel = (done ++ rest)%list ->
      loop run 1 done (prologue cwd filel w) = (st, Ret tt) ->
      good st + bad st = Z.of_nat (List.length done)
      /\ loop run 1 filel (prologue cwd filel w)
         = loop run (1 + Z.of_nat (List.length done)) rest st)
  /\ (forall st,
         main run cwd filel w = (st, Ret tt) ->
         good st + bad st = Z.of_nat (List.length filel)).
Proof.
  split.
  - intros done rest st Hsplit Hloop. split.
    + destruct (loop_inv _ _ _ _ _ Hloop) as [Hg _].
      rewrite Hg. unfold prologue. cbn -[fmt_d]. lia.
    + transitivity (loop run 1 (done ++ rest) (prologue cwd filel w)).
      * rewrite <- Hsplit. reflexivity.
      * rewrite loop_app, Hloop. reflexivity.
  - intros st Hmain. unfold main in Hmain.
    destruct (loop run 1 filel (prologue cwd filel w))
      as [st1 [u | e | n]] eqn:Hloop; try discriminate Hmain.
    inversion Hmain; subst st.
    destruct (epilogue_counts (Z.of_nat (List.length filel)) st1) as [-> ->].
    destruct (loop_inv _ _ _ _ _ Hloop) as [Hg _].
    rewrite Hg. unfold prologue. cbn -[fmt_d]. lia.
Qed.

(** One pass through the body, given the result of the child. *)
Lemma body_classifies (k : Z) (name : string) (st : state World)
        (w : World) (res : CompletedProcess) :
  run (command name) (world st) = (w, Ret res) ->
  let st' := fst (body run k name st) in
  (returncode res <> 0 <-> bad st' = bad st + 1 /\ good st' = good st)
  /\ (returncode res = 0 <-> good st' = good st + 1 /\ bad st' = bad st)
  /\ commands st' = (commands st ++ [command name])%list
  /\ (forall (run2 : list string -> World -> World * outcome CompletedProcess)
             w2 res2,
         run2 (command name) (world st) = (w2, Ret res2) ->
         returncode res2 = returncode res ->
         let st2 := fst (body run2 k name st) in
         good st2 = good st' /\ bad st2 = bad st'
         /\ printed st2 = printed st').
Proof.
  intros Hrun. unfold body, command in *. cbn -[fmt_d strip].
  rewrite Hrun.
  destruct (returncode res =? 0) eqn:Hrc; cbn -[fmt_d strip].
  - pose proof (proj1 (Z.eqb_eq _ _) Hrc) as Hz.
    repeat split; try lia; try reflexivity;
      match goal with
      | Hrun2 : _ = (_, Ret ?r2), Hsame : returncode ?r2 = _ |- _ =>
          rewrite Hrun2; cbn -[fmt_d strip]; rewrite Hsame, Hrc; reflexivity
      end.
  - pose proof (proj1 (Z.eqb_neq _ _) Hrc) as Hnz.
    repeat split; try lia; try reflexivity;
      match goal with
      | Hrun2 : _ = (_, Ret ?r2), Hsame : returncode ?r2 = _ |- _ =>
          rewrite Hrun2; cbn -[fmt_d strip]; rewrite Hsame, Hrc; reflexivity
      end.
Qed.

(** C6: in a run, each discovered script that the loop gets to and whose
    child returns is counted as failed exactly when the child's exit
    code is not zero and as passed exactly when it is zero; the child is
    run once, with no argument, and the loop goes on with the next
    script; the counters and the text printed are the same for any
    other result with the same exit code. *)
Theorem classified_by_returncode (cwd : string) (filel done rest : list string)
        (name : string) (w : World) (st1 : state World)
        (w1 : World) (res : CompletedProcess) :
  filel = (done ++ name :: rest)%list ->
  loop run 1 done (prologue cwd filel w) = (st1, Ret tt) ->
  run (command name) (world st1) = (w1, Ret res) ->
  exists st2,
    loop run 1 (done ++ [name]) (prologue cwd filel w) = (st2, Ret tt)
    /\ loop run 1 filel (prologue cwd filel w)
       = loop run (1 + Z.of_nat (List.length done) + 1) rest st2
    /\ main run cwd filel w
       = match loop run (1 + Z.of_nat (List.length done) + 1) rest st2 with
         | (st, Ret _) => (epilogue (Z.of_nat (List.length filel)) st, Ret tt)
         | stop => stop
         end
    /\ (returncode res <> 0 <-> bad st2 = bad st1 + 1 /\ good st2 = good st1)
    /\ (returncode res = 0 <-> good st2 = good st1 + 1 /\ bad st2 = bad st1)
    /\ commands st2 = (commands st1 ++ [command name])%list
    /\ (forall (run2 : list string -> World -> World * outcome CompletedProcess)
               w2 res2,
           run2 (command name) (world st1) = (w2, Ret res2) ->
           returncode res2 = returncode res ->
           let st2' :=
             fst (body run2 (1 + Z.of_nat (List.length done)) name st1) in
           good st2' = good st2 /\ bad st2' = bad st2
           /\ printed st2' = printed st2).
Proof.
  intros Hsplit Hdone Hrun.
  set (k := 1 + Z.of_nat (List.length done)).
  assert (Hbody : body run k name st1 = (fst (body run k name st1), Ret tt)).
  { unfold body. cbn -[fmt_d strip]. rewrite Hrun.
    destruct (negb (returncode res =? 0)); reflexivity. }
  assert (Hstep : loop run 1 (done ++ [name]) (prologue cwd filel w)
                  = (fst (body run k name st1), Ret tt)).
  { rewrite loop_app, Hdone. cbn [loop]. fold k. now rewrite Hbody. }
  assert (Hall : loop run 1 filel (prologue cwd filel w)
                 = loop run (k + 1) rest (fst (body run k name st1))).
  { transitivity (loop run 1 ((done ++ [name]) ++ rest)
                       (prologue cwd filel w)).
    - rewrite <- app_assoc. cbn [app]. rewrite <- Hsplit. reflexivity.
    - rewrite loop_app, Hstep. rewrite length_app. cbn [List.length].
      unfold k. f_equal. lia. }
  exists (fst (body run k name st1)).
  split; [exact Hstep|]. split; [exact Hall|].
  split; [unfold main; now rewrite Hall|].
  exact (body_classifies k name st1 w1 res Hrun).
Qed.
End RunnerProperties.

(** ** Traces and text *)

Lemma append_assoc (a b c : string) : (a ++ b) ++ c = a ++ (b ++ c).
Proof. induction a as [| x a IH]; simpl; [reflexivity | now rewrite IH]. Qed.

Lemma stdout_of_app (t1 t2 : list event) :
  stdout_of (t1 ++ t2) = stdout_of t1 ++ stdout_of t2.
Proof.
  induction t1 as [| ev t1 IH]; simpl; [reflexivity|].
  destruct ev; simpl; rewrite IH; [apply eq_sym, append_assoc | | |];
    reflexivity.
Qed.

Lemma overlay_calls_app (t1 t2 : list event) :
  overlay_calls (t1 ++ t2) = (overlay_calls t1 ++ overlay_calls t2)%list.
Proof.
  induction t1 as [| ev t1 IH]; simpl; [reflexivity|].
  destruct ev; simpl; rewrite IH; reflexivity.
Qed.

Lemma contains_app_r (a b sub : string) :
  contains b sub -> contains (a ++ b) sub.
Proof.
  intros (pre & post & ->). exists (a ++ pre), post. now rewrite append_assoc.
Qed.

Lemma contains_app_l (a b sub : string) :
  contains a sub -> contains (a ++ b) sub.
Proof.
  intros (pre & post & ->). exists pre, (post ++ b).
  now rewrite !append_assoc.
Qed.

Lemma text_only_app (t1 t2 : list event) :
  text_only t1 -> text_only t2 -> text_only (t1 ++ t2).
Proof. unfold text_only. intros H1 H2. apply Forall_app. auto. Qed.

Lemma text_only_quiet (tr : list event) :
  text_only tr -> isfile_queries tr = [] /\ overlay_calls tr = [].
Proof.
  induction 1 as [| ev tr Hev _ IH]; [split; reflexivity|].
  destruct ev; simpl; try contradiction; exact IH.
Qed.

Lemma bind_text_only {A B} (m : M A) (k : A -> M B) :
  text_only (fst m) -> (forall a, text_only (fst (k a))) ->
  text_only (fst (bind m k)).
Proof.
  intros Hm Hk. destruct m as [tr [a | e | n]]; simpl in *; try assumption.
  specialize (Hk a). destruct (k a) as [tr' o]. simpl in *.
  now apply text_only_app.
Qed.

(** ** The argument parser *)

Section ParserProperties.
Variable E : collaborators.

Lemma eqb_refl d : Opt.eqb d d = true.
Proof. unfold Opt.eqb. destruct (Opt.eq_dec d d); congruence. Qed.

Lemma eqb_neq d d' : d <> d' -> Opt.eqb d d' = false.
Proof. unfold Opt.eqb. destruct (Opt.eq_dec d d'); congruence. Qed.

Lemma setattr_same ns d v : setattr ns d v d = v.
Proof. unfold setattr. now rewrite eqb_refl. Qed.

Lemma setattr_other ns d v d' : d' <> d -> setattr ns d v d' = ns d'.
Proof. intros H. unfold setattr. now rewrite eqb_neq. Qed.

Lemma get_value_Ret a s tr v :
  get_value E a s = (tr, Ret v) ->
  tr = [] /\ call_type E (type a) s = Ret v.
Proof.
  unfold get_value.
  destruct (call_type E (type a) s) as [v' | e | n]; simpl.
  - intros H. inversion H. auto.
  - destruct e; discriminate.
  - discriminate.
Qed.

Lemma get_value_of_call_type a s v :
  call_type E (type a) s = Ret v -> get_value E a s = ([], Ret v).
Proof. unfold get_value. now intros ->. Qed.

(** Every destination has its action, and the action has that
    destination. *)
Lemma action_of_dest d : exists a, action_of d = Some a /\ dest a = d.
Proof. destruct d; eexists; split; reflexivity. Qed.

Lemma action_of_In d a : action_of d = Some a -> In a parser /\ dest a = d.
Proof.
  intros H. unfold action_of in H. apply find_some in H as [Hin He].
  split; [assumption|]. unfold Opt.eqb in He.
  destruct (Opt.eq_dec (dest a) d); [assumption | discriminate].
Qed.

(** An action of the parser is the one its destination leads to: no
    two actions share a destination. *)
Lemma In_parser_action_of a : In a parser -> action_of (dest a) = Some a.
Proof.
  intros Ha. simpl in Ha.
  repeat (destruct Ha as [<- | Ha]; [reflexivity|]). contradiction.
Qed.

Lemma initial_namespace_default d a :
  action_of d = Some a -> initial_namespace d = default a.
Proof.
  destruct d; intros H; inversion H; reflexivity.
Qed.

Lemma seen_cons d d0 s c :
  seen d ((d0, s) :: c) = Opt.eqb d0 d || seen d c.
Proof. reflexivity. Qed.

Lemma seen_app d (c1 c2 : cmdline) :
  seen d (c1 ++ c2)%list = seen d c1 || seen d c2.
Proof. unfold seen. apply existsb_app. Qed.

(** What the options present leave in the namespace: an attribute
    whose option was not given is untouched, and one whose option was
    given holds a value its action's type returned. *)
Lemma take_options_spec c : forall ns tr ns',
  take_options E c ns = (tr, Ret ns') ->
  tr = []
  /\ forall d,
      (seen d c = false /\ ns' d = ns d)
      \/ (seen d c = true
          /\ exists a s, action_of d = Some a
                         /\ call_type E (type a) s = Ret (ns' d)).
Proof.
  induction c as [| [d0 s0] c IH]; intros ns tr ns' H.
  - simpl in H. inversion H; subst. split; [reflexivity|]. intros d. now left.
  - cbn [take_options] in H.
    destruct (action_of_dest d0) as (a0 & Ha0 & Hd0). rewrite Ha0 in H.
    apply bind_Ret_inv in H as (tr1 & v & tr2 & Hg & Hrest & ->).
    apply get_value_Ret in Hg as [-> Hv].
    apply IH in Hrest as [-> Hall]. split; [reflexivity|].
    intros d. rewrite seen_cons.
    destruct (Hall d) as [[Hs Hd] | [Hs Hd]].
    + destruct (Opt.eq_dec d0 d) as [<- | Hne].
      * right. rewrite eqb_refl. split; [reflexivity|]. exists a0, s0.
        rewrite Hd, setattr_same. auto.
      * left. rewrite eqb_neq by assumption.
        rewrite Hd, setattr_other by congruence. auto.
    + right. split; [now rewrite Hs, orb_true_r | exact Hd].
Qed.

Lemma take_options_app c1 c2 ns tr ns1 :
  take_options E c1 ns = (tr, Ret ns1) ->
  take_options E (c1 ++ c2)%list ns = take_options E c2 ns1.
Proof.
  revert ns tr ns1. induction c1 as [| [d0 s0] c1 IH]; intros ns tr ns1 H.
  - simpl in H. inversion H. reflexivity.
  - cbn [take_options app] in *.
    destruct (action_of d0) as [a0 |]; [| discriminate H].
    apply bind_Ret_inv in H as (tr1 & v & tr2 & Hg & Hrest & ->).
    pose proof (take_options_spec _ _ _ _ Hrest) as [-> _].
    pose proof (get_value_Ret _ _ _ _ Hg) as [-> _].
    rewrite (bind_Ret _ _ _ _ Hg). rewrite (IH _ _ _ Hrest).
    simpl. now destruct (take_options E c2 ns1).
Qed.

(** What the conversion of the defaults leaves: an attribute is
    untouched, and then no action for it has a string default to
    convert; or its option was not given, its action's default is a
    string, and it holds what the action's type made of that string. *)
Lemma convert_defaults_spec c l : forall ns tr ns',
  convert_defaults E l c ns = (tr, Ret ns') ->
  tr = []
  /\ forall d,
      (ns' d = ns d
       /\ forall a s, In a l -> dest a = d -> default a = VStr s ->
                      seen d c = true)
      \/ (exists a s, In a l /\ dest a = d /\ seen d c = false
                      /\ default a = VStr s
                      /\ call_type E (type a) s = Ret (ns' d)).
Proof.
  induction l as [| a l IH]; intros ns tr ns' H.
  - simpl in H. inversion H. split; [reflexivity|]. intros d. left.
    split; [reflexivity | intros ? ? []].
  - cbn [convert_defaults] in H.
    assert (Hskip : (forall s, default a = VStr s -> seen (dest a) c = true) ->
                    convert_defaults E l c ns = (tr, Ret ns') ->
                    tr = [] /\ forall d,
                      (ns' d = ns d
                       /\ forall a0 s, In a0 (a :: l) -> dest a0 = d ->
                                       default a0 = VStr s -> seen d c = true)
                      \/ (exists a0 s, In a0 (a :: l) /\ dest a0 = d
                             /\ seen d c = false /\ default a0 = VStr s
                             /\ call_type E (type a0) s = Ret (ns' d))).
    { intros Hno H'. apply IH in H' as [-> Hall]. split; [reflexivity|].
      intros d. destruct (Hall d) as [[Hd Hnone] | (a0 & s & Hin & Hrest)].
      - left. split; [exact Hd|]. intros a0 s [<- | Hin] Hd0 Hdef.
        + rewrite <- Hd0. eauto.
        + eauto.
      - right. exists a0, s. split; [now right | exact Hrest]. }
    destruct (seen (dest a) c) eqn:Hseen; [now apply Hskip|].
    destruct (default a) as [| | | | s | | | |] eqn:Hdef;
      try (apply Hskip; [discriminate | assumption]).
    apply bind_Ret_inv in H as (tr1 & v & tr2 & Hg & Hrest & ->).
    apply get_value_Ret in Hg as [-> Hv].
    apply IH in Hrest as [-> Hall]. split; [reflexivity|].
    intros d. destruct (Hall d) as [[Hd Hnone] | (a0 & s0 & Hin & Hrest)].
    + destruct (Opt.eq_dec d (dest a)) as [-> | Hne].
      * right. exists a, s. rewrite Hd, setattr_same.
        repeat split; auto. now left.
      * left. rewrite Hd, setattr_other by assumption.
        split; [reflexivity|]. intros a0 s0 [<- | Hin] Hd0 Hdef0.
        -- congruence.
        -- eauto.
    + right. exists a0, s0. split; [now right | exact Hrest].
Qed.

(** Both together: an attribute of the namespace [parse_args] returns
    is what the type made of the option's argument when the option was
    given, what it made of the default when that is a string, and the
    default itself otherwise.  A command line that parses leaves no
    event. *)
Lemma parse_args_spec c tr args :
  parse_args E c = (tr, Ret args) ->
  tr = []
  /\ forall d a, action_of d = Some a ->
      if seen d c then exists s, call_type E (type a) s = Ret (args d)
      else match default a with
           | VStr s => call_type E (type a) s = Ret (args d)
           | v => args d = v
           end.
Proof.
  unfold parse_args. intros H.
  apply bind_Ret_inv in H as (tr1 & ns1 & tr2 & Ht & Hc & ->).
  apply take_options_spec in Ht as [-> Ht].
  apply convert_defaults_spec in Hc as [-> Hc].
  split; [reflexivity|]. intros d a Ha.
  pose proof (action_of_In _ _ Ha) as [Hin Hda].
  destruct (Ht d) as [[Hs Hd] | [Hs (a1 & s1 & Ha1 & Hv1)]]; rewrite Hs.
  - destruct (Hc d) as [[Hsame Hnone] | (a2 & s2 & Hin2 & Hd2 & _ & Hdef & Hv)].
    + rewrite Hsame, Hd, (initial_namespace_default _ _ Ha).
      destruct (default a) eqn:Hdef; try reflexivity.
      specialize (Hnone a _ Hin Hda Hdef). congruence.
    + apply In_parser_action_of in Hin2. rewrite Hd2, Ha in Hin2.
      inversion Hin2; subst a2. now rewrite Hdef.
  - rewrite Ha in Ha1. inversion Ha1; subst a1.
    destruct (Hc d) as [[Hsame _] | (a2 & s2 & _ & _ & Hns & _)].
    + exists s1. now rewrite Hsame.
    + congruence.
Qed.
End ParserProperties.

(** ** The main block of the overlay script *)

Section MainProperties.
Variable E : collaborators.

Lemma bind_nil {A B} (a : A) (k : A -> M B) : bind ([], Ret a) k = k a.
Proof. apply bind_ret_l. Qed.

Lemma main_parsed c tr args :
  parse_args E c = (tr, Ret args) -> main E c = main_body E args.
Proof.
  intros H. pose proof (parse_args_spec E _ _ _ H) as [-> _].
  unfold main. rewrite H. apply bind_nil.
Qed.

(** *** What [parse_args] leaves in the attributes the block branches on *)

Lemma args_shrink c tr args :
  parse_args E c = (tr, Ret args) -> exists x, args Opt.shrink = VFloat x.
Proof.
  intros H. apply parse_args_spec in H as [_ H].
  specialize (H Opt.shrink _ eq_refl). cbn in H.
  destruct (seen Opt.shrink c).
  - destruct H as [s H]. destruct (py_float E s); inversion H; eauto.
  - eauto.
Qed.

Lemma args_tpf_filename c tr args :
  parse_args E c = (tr, Ret args) ->
  if seen Opt.tpf_filename c
  then exists f, args Opt.tpf_filename = VStr f
  else args Opt.tpf_filename = VNone.
Proof.
  intros H. apply parse_args_spec in H as [_ H].
  specialize (H Opt.tpf_filename _ eq_refl). cbn in H.
  destruct (seen Opt.tpf_filename c).
  - destruct H as [s H]. inversion H; eauto.
  - assumption.
Qed.

Lemma args_cmap c tr args :
  parse_args E c = (tr, Ret args) ->
  seen Opt.cmap c = false -> args Opt.cmap = VNone.
Proof.
  intros H Hs. apply parse_args_spec in H as [_ H].
  specialize (H Opt.cmap _ eq_refl). cbn in H. now rewrite Hs in H.
Qed.

(** *** The two halves of the block before the call *)

Lemma acquire_given f tpf shrink title :
  lk_open E (VStr f) = Ret tpf ->
  acquire_tpf E (VStr f) shrink title = ([], Ret (tpf, shrink, title)).
Proof. intros H. unfold acquire_tpf. simpl. rewrite H. reflexivity. Qed.

Lemma acquire_default search_result tpf x title :
  lk_search_tesscut E "XZ Cyg" 14 = Ret search_result ->
  download E search_result 10 0 = Ret tpf ->
  exists tr,
    acquire_tpf E VNone (VFloat x) title
    = (tr, Ret (tpf, VFloat (x * f0_8)%float,
                VStr "XZ Cyg : TESS : Sector 14"))
    /\ overlay_calls tr = [].
Proof.
  intros Hs Hd. unfold acquire_tpf. simpl. rewrite Hs. simpl. rewrite Hd.
  simpl. eexists. split; reflexivity.
Qed.

Lemma obtains_acquire c tr args tpf :
  parse_args E c = (tr, Ret args) ->
  obtains E (args Opt.tpf_filename) tpf ->
  exists tr1 shrink title,
    acquire_tpf E (args Opt.tpf_filename) (args Opt.shrink) (args Opt.title)
    = (tr1, Ret (tpf, shrink, title))
    /\ overlay_calls tr1 = []
    /\ (if seen Opt.tpf_filename c
        then shrink = args Opt.shrink /\ title = args Opt.title
        else exists x, args Opt.shrink = VFloat x
                       /\ shrink = VFloat (x * f0_8)%float
                       /\ title = VStr "XZ Cyg : TESS : Sector 14").
Proof.
  intros Hp Hobt.
  pose proof (args_tpf_filename _ _ _ Hp) as Hf.
  destruct (args_shrink _ _ _ Hp) as [x Hx].
  destruct (seen Opt.tpf_filename c).
  - destruct Hf as [f Hf]. rewrite Hf in *. simpl in Hobt.
    exists [], (args Opt.shrink), (args Opt.title).
    rewrite (acquire_given _ _ _ _ Hobt). auto.
  - rewrite Hf in *. simpl in Hobt. destruct Hobt as (sr & Hs & Hd).
    rewrite Hx.
    destruct (acquire_default _ _ x (args Opt.title) Hs Hd) as (tr1 & H1 & H2).
    exists tr1, (VFloat (x * f0_8)%float), (VStr "XZ Cyg : TESS : Sector 14").
    repeat split; eauto.
Qed.

Lemma check_tess_ok tpf tpf_filename :
  readable_tess tpf ->
  exists tr, check_tess E tpf tpf_filename = (tr, Ret tt)
             /\ overlay_calls tr = [].
Proof.
  intros (p & Hp & Hm). unfold check_tess, try_suite. rewrite Hp, Hm. simpl.
  eexists. split; reflexivity.
Qed.

Lemma eq_str_false m s : m <> VStr s -> eq_str m s = false.
Proof.
  destruct m; try reflexivity. simpl. intros H.
  apply String.eqb_neq. congruence.
Qed.

Lemma eq_str_true m s : eq_str m s = true -> m = VStr s.
Proof.
  destruct m; simpl; try discriminate.
  intros H. apply String.eqb_eq in H. now subst.
Qed.

Lemma basename_cases p :
  (exists b, basename E p = Ret b) \/ (exists e, basename E p = Raise e).
Proof.
  destruct p; simpl; eauto;
    destruct (ntpath_basename_nonstr E _); simpl; eauto.
Qed.

Lemma dirname_cases p :
  (exists d, dirname E p = Ret d) \/ (exists e, dirname E p = Raise e).
Proof.
  destruct p; simpl; eauto;
    destruct (os_path_dirname_nonstr E _); simpl; eauto.
Qed.

(** The suite of the [try], step by step: it ends normally when the
    product passes the check and raises otherwise; it leaves text
    only. *)
Lemma try_suite_cases tpf :
  (passes_tess_check E tpf
   /\ exists tr, try_suite E tpf = (tr, Ret tt) /\ text_only tr)
  \/ (~ passes_tess_check E tpf
      /\ exists tr e, try_suite E tpf = (tr, Raise e) /\ text_only tr).
Proof.
  unfold try_suite, passes_tess_check.
  destruct (path tpf) as [p | e] eqn:Hp; cbn -[basename dirname].
  2:{ right. split; [intros (p & b & d & H & _); discriminate H|].
      eexists; eexists; split; [reflexivity | constructor]. }
  destruct (basename_cases p) as [[b Hb] | [e Hb]]; rewrite Hb;
    cbn -[basename dirname].
  2:{ right. split; [intros (p' & b & d & H & Hb' & _); congruence|].
      eexists; eexists; split; [reflexivity | constructor]. }
  destruct (dirname_cases p) as [[d Hd] | [e Hd]]; rewrite Hd;
    cbn -[basename dirname].
  2:{ right. split; [intros (p' & b' & d & H & _ & Hd' & _); congruence|].
      eexists; eexists; split; [reflexivity | repeat constructor]. }
  destruct (mission tpf) as [m | e] eqn:Hm; cbn -[basename dirname].
  2:{ right. split; [intros (p' & b' & d' & _ & _ & _ & H); discriminate H|].
      eexists; eexists; split; [reflexivity | repeat constructor]. }
  destruct (eq_str m "TESS") eqn:He; cbn -[basename dirname].
  - left. apply eq_str_true in He. subst m. split; [eauto 8|].
    eexists; split; [reflexivity | repeat constructor].
  - right. split.
    + intros (p' & b' & d' & _ & _ & _ & H). inversion H; subst m.
      discriminate He.
    + eexists; eexists; split; [reflexivity | repeat constructor].
Qed.

Lemma not_tess_fails_check tpf : not_tess tpf -> ~ passes_tess_check E tpf.
Proof.
  intros [[e He] | [[e He] | (m & Hm & Hne)]] (p & b & d & Hp & _ & _ & Hmi);
    congruence.
Qed.

Lemma readable_passes tpf : readable_tess tpf -> passes_tess_check E tpf.
Proof.
  intros (p & Hp & Hm). exists (VStr p). eexists. eexists.
  repeat split; eauto.
Qed.

Lemma try_suite_raises tpf :
  not_tess tpf ->
  exists tr e, try_suite E tpf = (tr, Raise e) /\ overlay_calls tr = [].
Proof.
  intros Hnot. apply not_tess_fails_check in Hnot.
  destruct (try_suite_cases tpf) as [[Hpass _] | (_ & tr & e & Hs & Ht)];
    [contradiction|].
  exists tr, e. split; [exact Hs|]. now apply text_only_quiet.
Qed.

Lemma except_suite_exits tpf_filename :
  exists tr, except_suite E tpf_filename = (tr, Exit 1)
             /\ contains (stdout_of tr) not_tess_message
             /\ overlay_calls tr = [].
Proof.
  unfold except_suite. simpl. eexists. split; [reflexivity|].
  split; [| reflexivity]. cbn [stdout_of].
  apply contains_app_r. exists "^--- ". eexists. vm_compute. reflexivity.
Qed.

Lemma check_tess_fails tpf tpf_filename :
  not_tess tpf ->
  exists tr, check_tess E tpf tpf_filename = (tr, Exit 1)
             /\ contains (stdout_of tr) not_tess_message
             /\ overlay_calls tr = [].
Proof.
  intros Hnot. unfold check_tess.
  destruct (try_suite_raises _ Hnot) as (tr1 & e & -> & Ho1).
  destruct (except_suite_exits tpf_filename) as (tr2 & -> & Hc & Ho2).
  simpl. eexists. split; [reflexivity|]. split.
  - rewrite stdout_of_app. now apply contains_app_r.
  - now rewrite overlay_calls_app, Ho1, Ho2.
Qed.

(** *** The block as a whole *)

Lemma main_body_exits args tpf tr1 shrink title tr2 n :
  acquire_tpf E (args Opt.tpf_filename) (args Opt.shrink) (args Opt.title)
  = (tr1, Ret (tpf, shrink, title)) ->
  check_tess E tpf (args Opt.tpf_filename) = (tr2, Exit n) ->
  main_body E args = ((Stdout LF :: tr1 ++ tr2)%list, Exit n).
Proof.
  intros Ha Hc. unfold main_body. cbv zeta.
  rewrite (bind_Ret (print "") _ _ _ eq_refl).
  rewrite (bind_Ret _ _ _ _ Ha). cbv beta iota.
  rewrite Hc. reflexivity.
Qed.

Lemma main_body_calls args tpf tr1 shrink title tr2 :
  acquire_tpf E (args Opt.tpf_filename) (args Opt.shrink) (args Opt.title)
  = (tr1, Ret (tpf, shrink, title)) ->
  check_tess E tpf (args Opt.tpf_filename) = (tr2, Ret tt) ->
  fst (main_body E args)
  = (Stdout LF :: tr1 ++ tr2
       ++ [Overlay (call_kwargs E args tpf shrink title)])%list.
Proof.
  intros Ha Hc. unfold main_body. cbv zeta.
  rewrite (bind_Ret (print "") _ _ _ eq_refl).
  rewrite (bind_Ret _ _ _ _ Ha). cbv beta iota.
  rewrite (bind_Ret _ _ _ _ Hc).
  unfold mkpy3_tess_tpf_overlay_v3. fold (call_kwargs E args tpf shrink title).
  destruct (mkpy3_tpf_overlay_v4 E _); reflexivity.
Qed.

(** When the product is a readable TESS one the delegate is called,
    once, with [call_kwargs]; [shrink] and [title] are the parsed ones
    when a file name was given, and the scaled shrink and the fixed
    title when none was. *)
Lemma main_calls_overlay c tr args tpf :
  parse_args E c = (tr, Ret args) ->
  obtains E (args Opt.tpf_filename) tpf ->
  readable_tess tpf ->
  exists shrink title,
    overlay_calls (fst (main E c)) = [call_kwargs E args tpf shrink title]
    /\ (if seen Opt.tpf_filename c
        then shrink = args Opt.shrink /\ title = args Opt.title
        else exists x, args Opt.shrink = VFloat x
                       /\ shrink = VFloat (x * f0_8)%float
                       /\ title = VStr "XZ Cyg : TESS : Sector 14").
Proof.
  intros Hp Hobt Htess.
  destruct (obtains_acquire _ _ _ _ Hp Hobt)
    as (tr1 & shrink & title & Ha & Ho1 & Hst).
  destruct (check_tess_ok _ (args Opt.tpf_filename) Htess) as (tr2 & Hc & Ho2).
  exists shrink, title. split; [| exact Hst].
  rewrite (main_parsed _ _ _ Hp), (main_body_calls _ _ _ _ _ _ Ha Hc).
  cbn [overlay_calls]. rewrite !overlay_calls_app, Ho1, Ho2. reflexivity.
Qed.
End MainProperties.

(** ** The claims about the main block *)

Section MainClaims.
Variable E : collaborators.

(** C7: when the product the script got is not a TESS one, or reading
    it raises, the script prints the diagnostic and ends at once with
    status 1: the rendering delegate is not called. *)
Theorem not_tess_exits c tr args tpf :
  parse_args E c = (tr, Ret args) ->
  obtains E (args Opt.tpf_filename) tpf ->
  not_tess tpf ->
  snd (main E c) = Exit 1
  /\ exit_status (snd (main E c)) = 1
  /\ contains (stdout_of (fst (main E c))) not_tess_message
  /\ overlay_calls (fst (main E c)) = [].
Proof.
  intros Hp Hobt Hnot.
  destruct (obtains_acquire _ _ _ _ _ Hp Hobt)
    as (tr1 & shrink & title & Ha & Ho1 & _).
  destruct (check_tess_fails E _ (args Opt.tpf_filename) Hnot)
    as (tr2 & Hc & Hmsg & Ho2).
  rewrite (main_parsed _ _ _ _ Hp), (main_body_exits _ _ _ _ _ _ _ _ Ha Hc).
  cbn [fst snd exit_status]. repeat split.
  - change (Stdout LF :: tr1 ++ tr2)%list
      with ([Stdout LF] ++ (tr1 ++ tr2))%list.
    rewrite !stdout_of_app. now do 2 apply contains_app_r.
  - cbn [overlay_calls]. now rewrite overlay_calls_app, Ho1, Ho2.
Qed.

(** When [lk.open] itself raises, nothing catches the exception: the
    process ends with status 1 and the delegate is not called. *)
Lemma open_raises c tr args f e :
  parse_args E c = (tr, Ret args) ->
  args Opt.tpf_filename = VStr f ->
  lk_open E (VStr f) = Raise e ->
  main E c = ([Stdout LF], Raise e) /\ exit_status (snd (main E c)) = 1.
Proof.
  intros Hp Hf Ho. rewrite (main_parsed _ _ _ _ Hp).
  unfold main_body, acquire_tpf. rewrite Hf. simpl. rewrite Ho. simpl.
  split; reflexivity.
Qed.

(** C9: without [--tpf_filename] the delegate gets the parsed shrink
    times 0.8 and the title of the default target, whatever [--title]
    was; with [--tpf_filename] it gets the parsed shrink and title. *)
#[warnings="-inexact-float"]
Theorem default_target_overrides c tr args tpf :
  parse_args E c = (tr, Ret args) ->
  obtains E (args Opt.tpf_filename) tpf ->
  readable_tess tpf ->
  exists kw,
    overlay_calls (fst (main E c)) = [kw]
    /\ (seen Opt.tpf_filename c = false ->
        exists x, args Opt.shrink = VFloat x
                  /\ Kw.shrink kw = VFloat (x * 0.8)%float
                  /\ Kw.title kw = VStr "XZ Cyg : TESS : Sector 14")
    /\ (seen Opt.tpf_filename c = true ->
        Kw.shrink kw = args Opt.shrink /\ Kw.title kw = args Opt.title).
Proof.
  intros Hp Hobt Htess.
  destruct (main_calls_overlay _ _ _ _ _ Hp Hobt Htess)
    as (shrink & title & Hcalls & Hst).
  eexists. split; [exact Hcalls|]. cbn [call_kwargs Kw.shrink Kw.title].
  split; intros Hseen; rewrite Hseen in Hst.
  - destruct Hst as (x & Hx & -> & ->). exists x.
    split; [exact Hx|]. split; [| reflexivity].
    reflexivity.
  - destruct Hst as [-> ->]. auto.
Qed.

Lemma take_float_option d s x ns c :
  (exists a, action_of d = Some a /\ type a = type_float) ->
  py_float E s = Some x ->
  take_options E ((d, s) :: c) ns
  = take_options E c (setattr ns d (VFloat x)).
Proof.
  intros (a & Ha & Hty) Hf. cbn [take_options]. rewrite Ha.
  rewrite (get_value_of_call_type E a s (VFloat x)).
  - exact (bind_nil (VFloat x) (fun v => take_options E c (setattr ns d v))).
  - rewrite Hty. simpl. now rewrite Hf.
Qed.

(** The defaults that are strings to convert belong to other options
    than [--percentile] and [--shrink]. *)
Lemma seen_with_floats c sp ss a s :
  In a parser -> default a = VStr s ->
  seen (dest a) (c ++ [(Opt.percentile, sp); (Opt.shrink, ss)])%list
  = seen (dest a) c.
Proof.
  intros Hin Hdef. rewrite seen_app. simpl in Hin.
  repeat (destruct Hin as [<- | Hin];
          [first [discriminate Hdef | apply orb_false_r]|]).
  contradiction.
Qed.

(** Whether the defaults convert depends on the command line only
    through the string defaults' options being present. *)
Lemma convert_defaults_succeeds (c c' : cmdline) l : forall ns ns' tr args,
  (forall a s, In a l -> default a = VStr s ->
               seen (dest a) c' = seen (dest a) c) ->
  convert_defaults E l c ns = (tr, Ret args) ->
  exists args', convert_defaults E l c' ns' = ([], Ret args').
Proof.
  induction l as [| a l IH]; intros ns ns' tr args Hseen H.
  - eexists. reflexivity.
  - cbn [convert_defaults] in *.
    assert (Hl : forall a0 s, In a0 l -> default a0 = VStr s ->
                              seen (dest a0) c' = seen (dest a0) c)
      by (intros; eapply Hseen; eauto; now right).
    destruct (default a) as [| | | | s | | | |] eqn:Hdef;
      try (destruct (seen (dest a) c), (seen (dest a) c'); now eapply IH; eauto).
    rewrite (Hseen a s (or_introl eq_refl) Hdef).
    destruct (seen (dest a) c); [now eapply IH; eauto|].
    apply bind_Ret_inv in H as (tr1 & v & tr2 & Hg & Hrest & ->).
    pose proof (get_value_Ret _ _ _ _ _ Hg) as [-> _].
    rewrite (bind_Ret _ _ _ _ Hg).
    destruct (IH _ (setattr ns' (dest a) v) _ _ Hl Hrest) as [args' ->].
    eexists. reflexivity.
Qed.

(** C8: whatever floats [--percentile] and [--shrink] are given, a
    command line that parses without them parses with them; the
    namespace holds the two floats as they are, and the delegate gets
    the percentile unchanged and the shrink unchanged (times 0.8 for
    the default target).  No range is checked. *)
Theorem percentile_shrink_unchecked c tr args (sp ss : string) (p s : float) :
  parse_args E c = (tr, Ret args) ->
  py_float E sp = Some p ->
  py_float E ss = Some s ->
  let c' := (c ++ [(Opt.percentile, sp); (Opt.shrink, ss)])%list in
  exists args',
    parse_args E c' = ([], Ret args')
    /\ args' Opt.percentile = VFloat p
    /\ args' Opt.shrink = VFloat s
    /\ forall tpf,
        obtains E (args' Opt.tpf_filename) tpf ->
        readable_tess tpf ->
        exists kw,
          overlay_calls (fst (main E c')) = [kw]
          /\ Kw.percentile kw = VFloat p
          /\ Kw.shrink kw = if seen Opt.tpf_filename c' then VFloat s
                            else VFloat (s * f0_8)%float.
Proof.
  intros Hp Hfp Hfs c'.
  unfold parse_args in Hp.
  apply bind_Ret_inv in Hp as (tr1 & ns1 & tr2 & Ht & Hc & ->).
  set (ns' := setattr (setattr ns1 Opt.percentile (VFloat p))
                      Opt.shrink (VFloat s)).
  assert (Ht' : take_options E c' initial_namespace = ([], Ret ns')).
  { unfold c'. rewrite (take_options_app _ _ _ _ _ _ Ht).
    rewrite (take_float_option Opt.percentile sp p)
      by (try (eexists; split; reflexivity); assumption).
    rewrite (take_float_option Opt.shrink ss s)
      by (try (eexists; split; reflexivity); assumption).
    reflexivity. }
  destruct (convert_defaults_succeeds c c' parser ns1 ns' _ _
              (seen_with_floats c sp ss) Hc) as [args' Hc'].
  assert (Hp' : parse_args E c' = ([], Ret args')).
  { unfold parse_args. rewrite Ht', bind_nil. exact Hc'. }
  assert (Hseen : forall d, In d [Opt.percentile; Opt.shrink] ->
                            args' d = ns' d).
  { intros d Hd.
    destruct (convert_defaults_spec _ _ _ _ _ _ Hc') as [_ Hall].
    destruct (Hall d) as [[Hsame _] | (a & s0 & _ & _ & Hns & _)];
      [exact Hsame|].
    exfalso. unfold c' in Hns. rewrite seen_app in Hns.
    destruct Hd as [<- | [<- | []]]; cbn in Hns;
      rewrite orb_true_r in Hns; discriminate Hns. }
  assert (Hpc : args' Opt.percentile = VFloat p).
  { rewrite Hseen by (simpl; auto). unfold ns'.
    rewrite setattr_other by discriminate. apply setattr_same. }
  assert (Hsh : args' Opt.shrink = VFloat s).
  { rewrite Hseen by (simpl; auto). apply setattr_same. }
  exists args'. repeat split; try assumption.
  intros tpf Hobt Htess.
  destruct (main_calls_overlay _ _ _ _ _ Hp' Hobt Htess)
    as (shrink & title & Hcalls & Hst).
  eexists. split; [exact Hcalls|].
  cbn [call_kwargs Kw.percentile Kw.shrink]. split; [exact Hpc|].
  destruct (seen Opt.tpf_filename c').
  - destruct Hst as [-> _]. exact Hsh.
  - destruct Hst as (x & Hx & -> & _). congruence.
Qed.
End MainClaims.

(** The documented defaults that the parser does use: an absent
    [--survey], [--percentile] or [--plot_file] leaves the value its
    help text names. *)
Lemma documented_defaults E c tr args :
  parse_args E c = (tr, Ret args) ->
  (seen Opt.survey c = false -> args Opt.survey = VStr "2MASS-J")
  /\ (seen Opt.percentile c = false ->
      args Opt.percentile = VFloat 99.5%float)
  /\ (seen Opt.plot_file c = false ->
      args Opt.plot_file = VStr "mkpy3_plot.png").
Proof.
  intros H. apply parse_args_spec in H as [_ H].
  pose proof (H Opt.survey _ eq_refl) as H1.
  pose proof (H Opt.percentile _ eq_refl) as H2.
  pose proof (H Opt.plot_file _ eq_refl) as H3.
  cbn in H1, H2, H3.
  repeat split; intros Hs; rewrite Hs in *; congruence.
Qed.

(** An absent [--cmap] reaches the delegate as [None], in every
    environment. *)
Lemma absent_cmap_is_None E c tr args tpf :
  parse_args E c = (tr, Ret args) ->
  seen Opt.cmap c = false ->
  obtains E (args Opt.tpf_filename) tpf ->
  readable_tess tpf ->
  exists kw, overlay_calls (fst (main E c)) = [kw] /\ Kw.cmap kw = VNone.
Proof.
  intros Hp Hs Hobt Htess.
  destruct (main_calls_overlay _ _ _ _ _ Hp Hobt Htess)
    as (shrink & title & Hcalls & _).
  eexists. split; [exact Hcalls|]. cbn [call_kwargs Kw.cmap].
  eapply args_cmap; eauto.
Qed.

(** C4: the script run with no option at all.  The delegate gets the
    documented defaults of [--survey], [--percentile] and [--plot_file],
    but for [--cmap] it gets [None], where the help text of the option
    names ['gray_r']. *)
Theorem cmap_default_is_not_the_documented_one :
  (exists a, action_of Opt.cmap = Some a
             /\ default a = VNone
             /\ contains (help a) "[default: 'gray_r']")
  /\ exists kw,
      overlay_calls (fst (main Sample.env [])) = [kw]
      /\ Kw.survey kw = VStr "2MASS-J"
      /\ Kw.percentile kw = VFloat 99.5%float
      /\ Kw.plot_file kw = VStr "mkpy3_plot.png"
      /\ Kw.cmap kw = VNone
      /\ Kw.cmap kw <> VStr "gray_r".
Proof.
  split.
  - eexists. split; [reflexivity|]. split; [reflexivity|].
    exists "Colormap name [Matplotlib] (str) ", "". reflexivity.
  - eexists. split; [vm_compute; reflexivity|].
    repeat split; try reflexivity. discriminate.
Qed.

(** ** The claims applied *)

Lemma not_tess_exits_witness :
  not_tess Sample.kepler
  /\ snd (main Sample.env [(Opt.tpf_filename, "kepler.fits")]) = Exit 1.
Proof.
  assert (Hnot : not_tess Sample.kepler).
  { right; right. exists (VStr "Kepler"). split; [reflexivity | discriminate]. }
  split; [exact Hnot|].
  refine (proj1 (not_tess_exits Sample.env
                   [(Opt.tpf_filename, "kepler.fits")] [] _ Sample.kepler
                   _ _ Hnot)).
  - reflexivity.
  - reflexivity.
Defined.

#[warnings="-inexact-float"]
Lemma default_target_overrides_witness :
  exists kw,
    overlay_calls
      (fst (main Sample.env [(Opt.title, "My title"); (Opt.shrink, "0.5")]))
    = [kw]
    /\ Kw.shrink kw = VFloat 0.4%float
    /\ Kw.title kw = VStr "XZ Cyg : TESS : Sector 14".
Proof.
  assert (Htess : readable_tess Sample.tess).
  { exists "tess.fits". split; reflexivity. }
  destruct (default_target_overrides Sample.env
              [(Opt.title, "My title"); (Opt.shrink, "0.5")] []
              _ Sample.tess eq_refl
              (ex_intro _ tt (conj eq_refl eq_refl)) Htess)
    as (kw & Hcalls & Hdefault & _).
  exists kw. split; [exact Hcalls|].
  destruct (Hdefault eq_refl) as (x & Hx & Hshrink & Htitle).
  split; [| exact Htitle].
  rewrite Hshrink. cbv in Hx. inversion Hx. reflexivity.
Defined.

Lemma percentile_shrink_unchecked_witness :
  exists args',
    parse_args Sample.env [(Opt.tpf_filename, "tess.fits");
                           (Opt.percentile, "150.0"); (Opt.shrink, "-0.5")]
    = ([], Ret args')
    /\ args' Opt.percentile = VFloat 150.0%float
    /\ args' Opt.shrink = VFloat (-0.5)%float.
Proof.
  destruct (percentile_shrink_unchecked Sample.env
              [(Opt.tpf_filename, "tess.fits")] [] _ "150.0" "-0.5"
              150.0%float (-0.5)%float eq_refl eq_refl eq_refl)
    as (args' & Hp & Hpc & Hsh & _).
  exists args'. repeat split; assumption.
Defined.

Lemma good_plus_bad_witness :
  exists st,
    check_mkpy3_v5.main Sample.run "/home/u" Sample.scripts 0%nat
    = (st, Ret tt)
    /\ check_mkpy3_v5.good st + check_mkpy3_v5.bad st = 3.
Proof.
  eexists. split; [reflexivity|].
  exact (proj2 (good_plus_bad nat Sample.run "/home/u" Sample.scripts 0%nat)
               _ eq_refl).
Defined.

Lemma classified_by_returncode_witness :
  exists st1 st2,
    check_mkpy3_v5.loop Sample.run 1 ["./mkpy3_a.py"]
      (check_mkpy3_v5.prologue "/home/u" Sample.scripts 0%nat)
    = (st1, Ret tt)
    /\ check_mkpy3_v5.loop Sample.run 1 ["./mkpy3_a.py"; "./mkpy3_bb.py"]
         (check_mkpy3_v5.prologue "/home/u" Sample.scripts 0%nat)
       = (st2, Ret tt)
    /\ check_mkpy3_v5.bad st2 = check_mkpy3_v5.bad st1 + 1
    /\ check_mkpy3_v5.good st2 = check_mkpy3_v5.good st1.
Proof.
  eexists.
  destruct (classified_by_returncode nat Sample.run "/home/u" Sample.scripts
              ["./mkpy3_a.py"] ["./mkpy3_c.py"] "./mkpy3_bb.py" 0%nat
              _ _ _ eq_refl eq_refl eq_refl)
    as (st2 & Hstep & _ & _ & Hbad & _).
  exists st2. split; [reflexivity|]. split; [exact Hstep|].
  apply Hbad. cbn. discriminate.
Defined.

(** C5 as it is worded, with the sum equal to the number of discovered
    scripts after each iteration, fails: of three scripts, after the
    first iteration the sum is 1. *)
Lemma good_plus_bad_counterexample :
  ~ (forall (World : Type)
            (run : list string -> World
                   -> World * outcome check_mkpy3_v5.CompletedProcess)
            (cwd : string) (filel done rest : list string) (w : World)
            (st : check_mkpy3_v5.state World),
        filel = (done ++ rest)%list ->
        check_mkpy3_v5.loop run 1 done (check_mkpy3_v5.prologue cwd filel w)
        = (st, Ret tt) ->
        check_mkpy3_v5.good st + check_mkpy3_v5.bad st
        = Z.of_nat (List.length filel)).
Proof.
  intros H.
  specialize (H nat Sample.run "/home/u" Sample.scripts
                ["./mkpy3_a.py"] ["./mkpy3_bb.py"; "./mkpy3_c.py"] 0%nat
                _ eq_refl eq_refl).
  vm_compute in H. discriminate H.
Qed.

(** * Further properties *)

(** ** The boolean parser and the guard *)

(** X1: [str2bool] does not see the case of letters at all: two strings
    that differ only in letter case get the same result, be it a
    boolean or the error. *)
Theorem str2bool_recase (v w : string) :
  recase v w -> str2bool v = str2bool w.
Proof.
  intros H. unfold str2bool. now rewrite (recase_lower _ _ H).
Qed.

Lemma str2bool_recase_witness :
  recase "TrUe" "true" /\ str2bool "TrUe" = str2bool "true".
Proof.
  assert (H : recase "TrUe" "true") by solve_recase.
  split; [exact H | exact (str2bool_recase _ _ H)].
Defined.

(** X2: on a [str] and a [bool] the guard ends in one of three ways.
    It exits with status 1 exactly when [overwrite] is false, [os] and
    [sys] are bound and the file exists, and then the text printed
    names the file.  It raises [NameError] exactly when [overwrite] is
    false and [os] is not bound, or the file exists and [sys] is not
    bound.  Otherwise it returns.  With [overwrite=True] it leaves no
    event at all. *)
Theorem check_file_exists_exits_iff (isfile : string -> bool) (g : globals)
        (filename : string) (overwrite : bool) :
  let r := check_file_exists isfile g (VStr filename) (VBool overwrite) in
  (snd r = Exit 1 <->
   overwrite = false /\ os_bound g = true /\ isfile filename = true
   /\ sys_bound g = true)
  /\ (snd r = Raise NameError <->
      overwrite = false
      /\ (os_bound g = false
          \/ (isfile filename = true /\ sys_bound g = false)))
  /\ (snd r = Exit 1 \/ snd r = Raise NameError \/ snd r = Ret tt)
  /\ (snd r = Exit 1 ->
      contains (stdout_of (fst r)) ("new_filename='" ++ filename ++ "'"))
  /\ (overwrite = true -> fst r = []).
Proof.
  unfold check_file_exists, os_path_isfile, global_name.
  destruct overwrite; cbn -[append].
  { repeat split; try discriminate; auto.
    - intros (H & _). discriminate H.
    - intros (H & _). discriminate H. }
  destruct (os_bound g) eqn:Hos; cbn -[append].
  2:{ repeat split; try discriminate; auto.
      intros (_ & H & _). discriminate H. }
  destruct (isfile filename) eqn:Hf; cbn -[append].
  2:{ repeat split; try discriminate; auto.
      - intros (_ & _ & H & _). discriminate H.
      - intros (_ & [H | (H & _)]); discriminate H. }
  destruct (sys_bound g) eqn:Hsys; cbn -[append].
  - repeat split; try discriminate; auto.
    + intros (_ & [H | (_ & H)]); discriminate H.
    + intros _. apply contains_app_r.
      exists "", (LF ++ LF ++ ""). cbn [append].
      rewrite !append_assoc. reflexivity.
  - repeat split; try discriminate; auto.
    intros (_ & _ & _ & H). discriminate H.
Qed.

Lemma check_file_exists_exits_iff_witness :
  snd (check_file_exists (isfile Sample.env) as_script (VStr "out.png")
                         (VBool false))
  = Exit 1
  /\ contains
       (stdout_of (fst (check_file_exists (isfile Sample.env) as_script
                                          (VStr "out.png") (VBool false))))
       "new_filename='out.png'"
  /\ snd (check_file_exists (isfile Sample.env) as_module (VStr "new.png")
                            (VBool false))
     = Raise NameError.
Proof.
  pose proof (check_file_exists_exits_iff (isfile Sample.env) as_script
                "out.png" false) as (Hiff & _ & _ & Hmsg & _).
  pose proof (check_file_exists_exits_iff (isfile Sample.env) as_module
                "new.png" false) as (_ & Hname & _).
  assert (H : snd (check_file_exists (isfile Sample.env) as_script
                                     (VStr "out.png") (VBool false)) = Exit 1).
  { apply Hiff. repeat split; reflexivity. }
  split; [exact H | split; [exact (Hmsg H)|]].
  apply Hname. split; [reflexivity | left; reflexivity].
Defined.

(** ** The check of the local setup *)

(** X3: with [lightkurve] importable, the version test lets the script
    go on exactly for the versions from 2.7 on (in the order of
    versions), as long as a version 2.x or lower has a one-digit minor;
    otherwise it prints that Python 2.7 is needed and exits with
    status 1. *)
Theorem check_local_setup_version (major minor : Z) :
  0 <= minor ->
  (major <= 2 -> minor <= 9) ->
  let r := check_local_setup major minor (Ret tt) in
  (2 < major \/ (major = 2 /\ 7 <= minor) -> r = ([], Ret tt))
  /\ (~ (2 < major \/ (major = 2 /\ 7 <= minor)) ->
      r = ([Stdout ("*** ERROR *** Needs Python 2.7 or higher." ++ LF)],
           Exit 1)).
Proof.
  intros Hmin Hdigit. unfold check_local_setup.
  destruct (major * 10 + minor <? 27) eqn:Hlt.
  - apply Z.ltb_lt in Hlt. split; intros H; [lia | reflexivity].
  - apply Z.ltb_ge in Hlt. split; intros H; [reflexivity | lia].
Qed.

Lemma check_local_setup_version_witness :
  check_local_setup 3 12 (Ret tt) = ([], Ret tt)
  /\ snd (check_local_setup 2 6 (Ret tt)) = Exit 1.
Proof.
  split.
  - refine (proj1 (check_local_setup_version 3 12 _ _) _); lia.
  - refine (f_equal snd (proj2 (check_local_setup_version 2 6 _ _) _)); lia.
Defined.

(** X4: when the import of [lightkurve] raises, on an interpreter that
    passes the version test, the script prints how to install the
    package and exits with status 1; the command line is not parsed and
    the delegate is not called. *)
Theorem lightkurve_missing (E : collaborators) (major minor : Z)
        (e : exc) (c : cmdline) :
  27 <= major * 10 + minor ->
  let r := script E major minor (Raise e) c in
  snd r = Exit 1
  /\ contains (stdout_of (fst r)) "pip install lightkurve --upgrade"
  /\ text_only (fst r)
  /\ r = check_local_setup major minor (Raise e).
Proof.
  intros Hver. unfold script, check_local_setup.
  apply Z.ltb_ge in Hver. rewrite Hver. cbn -[append].
  repeat split.
  - do 3 apply contains_app_r. apply contains_app_l.
    exists "", (LF ++ LF). reflexivity.
  - repeat constructor.
Qed.

Lemma lightkurve_missing_witness :
  snd (script Sample.env 3 12 (Raise (OtherError "ModuleNotFoundError")) [])
  = Exit 1.
Proof.
  refine (proj1 (lightkurve_missing Sample.env 3 12 _ [] _)). lia.
Defined.

(** ** The namespace [parse_args] returns *)

Section NamespaceProperties.
Variable E : collaborators.

Lemma call_type_has_type t s v :
  call_type E t s = Ret v -> has_type t v.
Proof.
  destruct t; simpl.
  - intros H. inversion H. eauto.
  - destruct (py_int E s); intros H; inversion H. eauto.
  - destruct (py_float E s); intros H; inversion H. eauto.
  - destruct (str2bool s); intros H; inversion H. eauto.
  - trivial.
Qed.

Lemma last_arg_seen d c :
  seen d c = match last_arg d c with Some _ => true | None => false end.
Proof.
  induction c as [| [d0 s0] c IH]; [reflexivity|].
  rewrite seen_cons. cbn [last_arg]. rewrite IH.
  destruct (last_arg d c); [apply orb_true_r|].
  rewrite orb_false_r. now destruct (Opt.eqb d0 d).
Qed.

Lemma take_options_last c : forall ns tr ns',
  take_options E c ns = (tr, Ret ns') ->
  forall d,
    match last_arg d c with
    | Some s => exists a, action_of d = Some a
                          /\ call_type E (type a) s = Ret (ns' d)
    | None => ns' d = ns d
    end.
Proof.
  induction c as [| [d0 s0] c IH]; intros ns tr ns' H d.
  - simpl in H. inversion H. reflexivity.
  - cbn [take_options] in H.
    destruct (action_of_dest d0) as (a0 & Ha0 & Hd0). rewrite Ha0 in H.
    apply bind_Ret_inv in H as (tr1 & v & tr2 & Hg & Hrest & ->).
    apply get_value_Ret in Hg as [-> Hv].
    specialize (IH _ _ _ Hrest d). cbn [last_arg].
    destruct (last_arg d c); [exact IH|].
    destruct (Opt.eq_dec d0 d) as [<- | Hne].
    + rewrite eqb_refl. exists a0. rewrite IH, setattr_same. auto.
    + rewrite eqb_neq by assumption. rewrite IH.
      apply setattr_other. congruence.
Qed.

(** X6: what [parse_args] returns, attribute by attribute: the argument
    of the option's last occurrence, converted by the option's type;
    for an option that is absent, its default, converted by the type
    when the default is a string. *)
Theorem parse_args_last_wins c tr args :
  parse_args E c = (tr, Ret args) ->
  forall d a,
    action_of d = Some a ->
    match last_arg d c with
    | Some s => call_type E (type a) s = Ret (args d)
    | None =>
        match default a with
        | VStr s => call_type E (type a) s = Ret (args d)
        | v => args d = v
        end
    end.
Proof.
  intros H d a Ha.
  pose proof (parse_args_spec E _ _ _ H) as [_ Hspec].
  specialize (Hspec d a Ha). rewrite last_arg_seen in Hspec.
  unfold parse_args in H.
  apply bind_Ret_inv in H as (tr1 & ns1 & tr2 & Ht & Hc & _).
  pose proof (take_options_last _ _ _ _ Ht d) as Hlast.
  destruct (last_arg d c) as [s |] eqn:Hl; [| exact Hspec].
  destruct Hlast as (a' & Ha' & Hv). rewrite Ha in Ha'. inversion Ha'; subst a'.
  destruct (convert_defaults_spec E _ _ _ _ _ Hc) as [_ Hall].
  destruct (Hall d) as [[Hsame _] | (a2 & s2 & _ & _ & Hns & _)].
  - now rewrite Hsame.
  - rewrite last_arg_seen, Hl in Hns. discriminate Hns.
Qed.

(** X5: the attributes of a namespace that [parse_args] returns have
    the types of their options: each holds a value of the kind its type
    function returns, or, for [--tpf_filename], [--title] and [--cmap]
    left out, [None]. *)
Theorem parse_args_types c tr args :
  parse_args E c = (tr, Ret args) ->
  forall d a,
    action_of d = Some a ->
    has_type (type a) (args d)
    \/ (last_arg d c = None /\ args d = VNone
        /\ In d [Opt.tpf_filename; Opt.title; Opt.cmap]).
Proof.
  intros H d a Ha.
  pose proof (parse_args_spec E _ _ _ H) as [_ Hspec].
  specialize (Hspec d a Ha). rewrite last_arg_seen in Hspec.
  destruct (last_arg d c) as [s |].
  - left. destruct Hspec as [s' Hv]. eapply call_type_has_type; eauto.
  - rename Hspec into Hv.
    destruct d; inversion Ha; subst a; cbn in Hv |- *;
      first [ left; exact I
            | left; rewrite Hv; eexists; reflexivity
            | left; inversion Hv; eexists; reflexivity
            | right; repeat split; auto 6 ].
Qed.

End NamespaceProperties.

Lemma parse_args_last_wins_witness :
  exists args,
    parse_args Sample.env [(Opt.shrink, "0.5"); (Opt.frame, "3");
                           (Opt.shrink, "2.5")] = ([], Ret args)
    /\ args Opt.shrink = VFloat 2.5%float
    /\ args Opt.frame = VInt 3
    /\ args Opt.survey = VStr "2MASS-J".
Proof.
  eexists. split; [reflexivity|].
  pose proof (parse_args_last_wins Sample.env
                [(Opt.shrink, "0.5"); (Opt.frame, "3"); (Opt.shrink, "2.5")]
                [] _ eq_refl) as H.
  pose proof (H Opt.shrink _ eq_refl) as H1.
  pose proof (H Opt.frame _ eq_refl) as H2.
  pose proof (H Opt.survey _ eq_refl) as H3.
  cbn in H1, H2, H3.
  repeat split; congruence.
Defined.

Lemma parse_args_types_witness :
  exists args,
    parse_args Sample.env [(Opt.overwrite, "Yes")] = ([], Ret args)
    /\ (exists b, args Opt.overwrite = VBool b)
    /\ (exists x, args Opt.percentile = VFloat x)
    /\ args Opt.cmap = VNone.
Proof.
  eexists. split; [reflexivity|].
  pose proof (parse_args_types Sample.env [(Opt.overwrite, "Yes")] [] _ eq_refl) as H.
  repeat split.
  - destruct (H Opt.overwrite _ eq_refl) as [Hb | (Hn & _)];
      [exact Hb | discriminate Hn].
  - destruct (H Opt.percentile _ eq_refl) as [Hx | (_ & _ & Hin)];
      [exact Hx|].
    cbn in Hin. repeat (destruct Hin as [Hin | Hin]; [discriminate Hin|]).
    contradiction.
Defined.

(** ** Traces of the overlay script *)

Section TraceProperties.
Variable E : collaborators.

Lemma get_value_text_only a s : text_only (fst (get_value E a s)).
Proof.
  unfold get_value.
  destruct (call_type E (type a) s) as [v | e | n]; [| destruct e |];
    simpl; repeat constructor.
Qed.

Lemma take_options_text_only c : forall ns,
  text_only (fst (take_options E c ns)).
Proof.
  induction c as [| [d s] c IH]; intros ns; [constructor|].
  cbn [take_options]. destruct (action_of d); [| repeat constructor].
  apply bind_text_only; [apply get_value_text_only | intros v; apply IH].
Qed.

Lemma convert_defaults_text_only c l : forall ns,
  text_only (fst (convert_defaults E l c ns)).
Proof.
  induction l as [| a l IH]; intros ns; [constructor|].
  cbn [convert_defaults]. destruct (seen (dest a) c); [apply IH|].
  destruct (default a); try apply IH.
  apply bind_text_only; [apply get_value_text_only | intros v; apply IH].
Qed.

Lemma parse_args_text_only c : text_only (fst (parse_args E c)).
Proof.
  unfold parse_args. apply bind_text_only.
  - apply take_options_text_only.
  - intros ns. apply convert_defaults_text_only.
Qed.

Lemma acquire_text_only fn sh ti : text_only (fst (acquire_tpf E fn sh ti)).
Proof.
  unfold acquire_tpf.
  destruct fn; simpl;
    try (destruct (lk_open E _) as [t | e | n]; simpl; repeat constructor);
    try (repeat constructor; fail).
  destruct (lk_search_tesscut E "XZ Cyg" 14) as [sr | e | n]; simpl;
    try (repeat constructor; fail).
  destruct (download E sr 10 0) as [t | e | n]; simpl;
    try (repeat constructor; fail).
  destruct sh; simpl; repeat constructor.
Qed.

Lemma acquire_obtains fn sh ti tr tpf sh' ti' :
  acquire_tpf E fn sh ti = (tr, Ret (tpf, sh', ti')) -> obtains E fn tpf.
Proof.
  unfold acquire_tpf, obtains.
  destruct fn; simpl; try discriminate.
  - destruct (lk_search_tesscut E "XZ Cyg" 14) as [sr | e | n]; simpl;
      try discriminate.
    destruct (download E sr 10 0) as [t | e | n] eqn:Hd; simpl;
      try discriminate.
    destruct sh; simpl; try discriminate.
    intros H. inversion H; subst. eauto.
  - destruct (lk_open E (VStr s)) as [t | e | n]; simpl; try discriminate.
    intros H. inversion H; subst. reflexivity.
Qed.

Lemma except_suite_text_only fn : text_only (fst (except_suite E fn)).
Proof. unfold except_suite. simpl. repeat constructor. Qed.

Lemma check_tess_cases tpf fn :
  (passes_tess_check E tpf /\ exists tr, check_tess E tpf fn = (tr, Ret tt)
                                   /\ text_only tr)
  \/ (~ passes_tess_check E tpf
      /\ exists tr, check_tess E tpf fn = (tr, Exit 1)
                    /\ text_only tr
                    /\ contains (stdout_of tr) not_tess_message).
Proof.
  unfold check_tess.
  destruct (try_suite_cases E tpf)
    as [(Hr & tr & -> & Ht) | (Hn & tr & e & -> & Ht)].
  - left. split; [exact Hr|]. exists tr. auto.
  - right. split; [exact Hn|].
    destruct (except_suite_exits E fn) as (tr2 & Hx & Hmsg & _).
    pose proof (except_suite_text_only fn) as Ht2. rewrite Hx in *.
    simpl. eexists. split; [reflexivity|]. split.
    + now apply text_only_app.
    + rewrite stdout_of_app. now apply contains_app_r.
Qed.

(** The main block after parsing ends in one of two ways: without a
    call of the delegate, its trace text only and its outcome not a
    normal return; or with one call, the last event, on a product
    that the script obtained and that passes the TESS check. *)
Lemma main_body_shape args :
  (text_only (fst (main_body E args))
   /\ forall u, snd (main_body E args) <> Ret u)
  \/ (exists tr tpf shrink title,
         text_only tr
         /\ fst (main_body E args)
            = (tr ++ [Overlay (call_kwargs E args tpf shrink title)])%list
         /\ obtains E (args Opt.tpf_filename) tpf
         /\ passes_tess_check E tpf).
Proof.
  destruct (acquire_tpf E (args Opt.tpf_filename) (args Opt.shrink)
                        (args Opt.title))
    as [tr1 [[[tpf shrink] title] | e | n]] eqn:Ha.
  - pose proof (acquire_text_only (args Opt.tpf_filename) (args Opt.shrink)
                                  (args Opt.title)) as Ht1.
    rewrite Ha in Ht1. simpl in Ht1.
    destruct (check_tess_cases tpf (args Opt.tpf_filename))
      as [(Hr & tr2 & Hc & Ht2) | (Hn & tr2 & Hc & Ht2 & _)].
    + right. exists (Stdout LF :: tr1 ++ tr2)%list, tpf, shrink, title.
      split; [constructor; [exact I | now apply text_only_app]|].
      split; [| split; [eapply acquire_obtains; eauto | exact Hr]].
      rewrite (main_body_calls E _ _ _ _ _ _ Ha Hc).
      cbn [app]. now rewrite <- app_assoc.
    + left. rewrite (main_body_exits E _ _ _ _ _ _ _ Ha Hc). simpl.
      split; [constructor; [exact I | now apply text_only_app] | discriminate].
  - left. pose proof (acquire_text_only (args Opt.tpf_filename)
                        (args Opt.shrink) (args Opt.title)) as Ht1.
    rewrite Ha in Ht1. unfold main_body. cbv zeta.
    rewrite (bind_Ret (print "") _ _ _ eq_refl). rewrite Ha. simpl.
    split; [constructor; [exact I | exact Ht1] | discriminate].
  - left. pose proof (acquire_text_only (args Opt.tpf_filename)
                        (args Opt.shrink) (args Opt.title)) as Ht1.
    rewrite Ha in Ht1. unfold main_body. cbv zeta.
    rewrite (bind_Ret (print "") _ _ _ eq_refl). rewrite Ha. simpl.
    split; [constructor; [exact I | exact Ht1] | discriminate].
Qed.

Lemma main_shape c :
  (text_only (fst (main E c)) /\ forall u, snd (main E c) <> Ret u)
  \/ (exists args tr tpf shrink title,
         parse_args E c = ([], Ret args)
         /\ text_only tr
         /\ fst (main E c)
            = (tr ++ [Overlay (call_kwargs E args tpf shrink title)])%list
         /\ obtains E (args Opt.tpf_filename) tpf
         /\ passes_tess_check E tpf).
Proof.
  destruct (parse_args E c) as [tr0 [args | e | n]] eqn:Hp.
  - pose proof (parse_args_spec E _ _ _ Hp) as [-> _].
    rewrite (main_parsed E _ _ _ Hp).
    destruct (main_body_shape args) as [H | (tr & tpf & sh & ti & H)].
    + now left.
    + right. exists args, tr, tpf, sh, ti. auto.
  - left. pose proof (parse_args_text_only c) as Ht. unfold main.
    rewrite Hp in *. simpl. split; [exact Ht | discriminate].
  - left. pose proof (parse_args_text_only c) as Ht. unfold main.
    rewrite Hp in *. simpl. split; [exact Ht | discriminate].
Qed.
End TraceProperties.

(** ** Further properties of the overlay script *)

Lemma isfile_queries_app (t1 t2 : list event) :
  isfile_queries (t1 ++ t2) = (isfile_queries t1 ++ isfile_queries t2)%list.
Proof.
  induction t1 as [| ev t1 IH]; simpl; [reflexivity|].
  destruct ev; simpl; rewrite IH; reflexivity.
Qed.

Lemma main_no_isfile E c : isfile_queries (fst (main E c)) = [].
Proof.
  destruct (main_shape E c)
    as [[Ht _] | (args & tr & tpf & sh & ti & _ & Ht & -> & _)].
  - now apply text_only_quiet.
  - rewrite isfile_queries_app. apply text_only_quiet in Ht as [-> _].
    reflexivity.
Qed.

Lemma check_local_setup_text_only major minor imp :
  text_only (fst (check_local_setup major minor imp)).
Proof.
  unfold check_local_setup. destruct (major * 10 + minor <? 27); simpl.
  - repeat constructor.
  - destruct imp; simpl; repeat constructor.
Qed.

(** X7: the script never asks whether a file exists.  Its one call of
    the guard, on the input file, passes [overwrite=True]; whether the
    output file is already there is not looked at before the delegate
    is called. *)
Theorem script_never_calls_isfile (E : collaborators) (major minor : Z)
        (import_lightkurve : outcome unit) (c : cmdline) :
  isfile_queries (fst (script E major minor import_lightkurve c)) = []
  /\ isfile_queries (fst (main E c)) = [].
Proof.
  split; [| apply main_no_isfile].
  unfold script.
  pose proof (check_local_setup_text_only major minor import_lightkurve) as Ht.
  apply text_only_quiet in Ht as [Hq _].
  destruct (check_local_setup major minor import_lightkurve)
    as [tr [u | e | n]]; simpl in *; try exact Hq.
  pose proof (main_no_isfile E c) as Hm.
  destruct (main E c) as [tr' o]. simpl in *.
  now rewrite isfile_queries_app, Hq, Hm.
Qed.

(** X8: the delegate is called at most once, and only as the last thing
    the main block does, on a product that the script obtained and that
    passed the TESS check (its path is one that [ntpath.basename] and
    [os.path.dirname] accept, its mission is TESS); and the main block
    returns normally only after that call. *)
Theorem delegate_only_on_tess (E : collaborators) (c : cmdline) :
  (forall kw,
      In kw (overlay_calls (fst (main E c))) ->
      overlay_calls (fst (main E c)) = [kw]
      /\ passes_tess_check E (Kw.tpf kw)
      /\ mission (Kw.tpf kw) = Has (VStr "TESS")
      /\ (exists tr, fst (main E c) = (tr ++ [Overlay kw])%list
                     /\ text_only tr)
      /\ exists args, parse_args E c = ([], Ret args)
                      /\ obtains E (args Opt.tpf_filename) (Kw.tpf kw))
  /\ (forall u, snd (main E c) = Ret u ->
                exists kw, overlay_calls (fst (main E c)) = [kw]).
Proof.
  destruct (main_shape E c)
    as [[Ht Hn] | (args & tr & tpf & sh & ti & Hp & Ht & Hfst & Hobt & Hr)].
  - apply text_only_quiet in Ht as [_ Ho]. split.
    + intros kw Hin. rewrite Ho in Hin. contradiction.
    + intros u Hu. now destruct (Hn u).
  - assert (Hcalls : overlay_calls (fst (main E c))
                     = [call_kwargs E args tpf sh ti]).
    { rewrite Hfst, overlay_calls_app.
      pose proof (text_only_quiet _ Ht) as [_ ->]. reflexivity. }
    split.
    + intros kw Hin. rewrite Hcalls in Hin |- *.
      destruct Hin as [<- | []]. cbn [call_kwargs Kw.tpf].
      split; [reflexivity|]. split; [exact Hr|]. split.
      * destruct Hr as (p & b & d & _ & _ & _ & Hm). exact Hm.
      * split; eauto.
    + intros u _. eauto.
Qed.

Lemma delegate_only_on_tess_witness :
  exists kw,
    overlay_calls
      (fst (main Sample.env [(Opt.tpf_filename, "tess.fits")])) = [kw]
    /\ passes_tess_check Sample.env (Kw.tpf kw)
    /\ mission (Kw.tpf kw) = Has (VStr "TESS").
Proof.
  pose proof (delegate_only_on_tess Sample.env
                [(Opt.tpf_filename, "tess.fits")]) as [Hin Hret].
  destruct (Hret tt eq_refl) as [kw Hkw].
  exists kw. split; [exact Hkw|].
  assert (Hk : In kw (overlay_calls
                        (fst (main Sample.env
                                   [(Opt.tpf_filename, "tess.fits")])))).
  { rewrite Hkw. now left. }
  destruct (Hin kw Hk) as (_ & Hpass & Hm & _).
  split; [exact Hpass | exact Hm].
Defined.

(** X9: every option but [--tpf_filename], [--shrink] and [--title]
    reaches the delegate under the keyword of its own name: as parsed,
    or, for the options read by [ast.literal_eval], as the [str] of the
    value read.  No keyword of the call is wired to another option. *)
Theorem keywords_not_crossed (E : collaborators) c tr args tpf :
  parse_args E c = (tr, Ret args) ->
  obtains E (args Opt.tpf_filename) tpf ->
  readable_tess tpf ->
  exists kw,
    overlay_calls (fst (main E c)) = [kw]
    /\ Kw.tpf kw = tpf
    /\ forall d a,
        action_of d = Some a ->
        ~ In d [Opt.tpf_filename; Opt.shrink; Opt.title] ->
        keyword d kw
        = Some (match type a with
                | type_literal_eval => VStr (str E (args d))
                | _ => args d
                end).
Proof.
  intros Hp Hobt Htess.
  destruct (main_calls_overlay E _ _ _ _ Hp Hobt Htess)
    as (shrink & title & Hcalls & _).
  eexists. split; [exact Hcalls|]. split; [reflexivity|].
  intros d a Ha Hnot.
  destruct d; inversion Ha; subst a; cbn; try reflexivity;
    exfalso; apply Hnot; simpl; auto.
Qed.

Lemma keywords_not_crossed_witness :
  exists kw,
    overlay_calls
      (fst (main Sample.env [(Opt.tpf_filename, "tess.fits");
                             (Opt.lws_str, "[0,1,2]")])) = [kw]
    /\ Kw.lws_str kw = VStr "[0, 1, 2]"
    /\ Kw.zorders_str kw = VStr "[0, 1, 2]"
    /\ Kw.survey kw = VStr "2MASS-J".
Proof.
  assert (Htess : readable_tess Sample.tess).
  { exists "tess.fits". split; reflexivity. }
  destruct (keywords_not_crossed Sample.env
              [(Opt.tpf_filename, "tess.fits"); (Opt.lws_str, "[0,1,2]")]
              [] _ Sample.tess eq_refl eq_refl Htess)
    as (kw & Hcalls & _ & Hkw).
  exists kw. split; [exact Hcalls|].
  assert (Hn : forall d, d <> Opt.tpf_filename -> d <> Opt.shrink ->
                         d <> Opt.title ->
                         ~ In d [Opt.tpf_filename; Opt.shrink; Opt.title]).
  { intros d H1 H2 H3 [H | [H | [H | []]]]; congruence. }
  pose proof (Hkw Opt.lws_str _ eq_refl
                  (Hn Opt.lws_str ltac:(discriminate) ltac:(discriminate)
                        ltac:(discriminate))) as H1.
  pose proof (Hkw Opt.zorders_str _ eq_refl
                  (Hn Opt.zorders_str ltac:(discriminate) ltac:(discriminate)
                        ltac:(discriminate))) as H2.
  pose proof (Hkw Opt.survey _ eq_refl
                  (Hn Opt.survey ltac:(discriminate) ltac:(discriminate)
                        ltac:(discriminate))) as H3.
  cbn in H1, H2, H3.
  injection H1 as H1. injection H2 as H2. injection H3 as H3.
  split; [exact H1 | split; [exact H2 | exact H3]].
Defined.

Lemma str2bool_rejects (s : string) :
  ~ In (lower s) true_words -> ~ In (lower s) false_words ->
  str2bool s = Raise (ArgumentTypeError "Boolean value expected.").
Proof.
  intros Ht Hf. unfold str2bool.
  destruct (str_in (lower s) true_words) eqn:E1;
    [apply str_in_In in E1; contradiction|].
  destruct (str_in (lower s) false_words) eqn:E2;
    [apply str_in_In in E2; contradiction | reflexivity].
Qed.

(** X10: on a command line that argparse's scanner has cut into
    options and their arguments, a word that [str2bool] rejects, given
    to one of the six boolean options after options that parse, ends
    the script with the parser's error for that option, status 2:
    nothing is printed on standard output, no product is opened, the
    delegate is not called, and the options after it are not
    converted. *)
Theorem bad_boolean_stops (E : collaborators) (c1 c2 : cmdline)
        (d : Opt.dest) (s : string) tr args :
  parse_args E c1 = (tr, Ret args) ->
  In d [Opt.show_plot; Opt.overwrite; Opt.print_gaia_dr2; Opt.print_vsx;
        Opt.sexagesimal; Opt.verbose] ->
  ~ In (lower s) true_words ->
  ~ In (lower s) false_words ->
  main E (c1 ++ (d, s) :: c2)%list
  = ([ArgparseError (Opt.flag d) "Boolean value expected."], Exit 2).
Proof.
  intros Hp Hd Ht Hf.
  unfold parse_args in Hp.
  apply bind_Ret_inv in Hp as (tr1 & ns1 & tr2 & Htake & _ & _).
  pose proof (take_options_spec E _ _ _ _ Htake) as [-> _].
  unfold main, parse_args.
  rewrite (take_options_app E _ _ _ _ _ Htake).
  cbn [take_options].
  assert (Ha : exists a, action_of d = Some a /\ type a = type_str2bool
                         /\ dest a = d).
  { simpl in Hd.
    repeat (destruct Hd as [<- | Hd];
            [eexists; split; [reflexivity | split; reflexivity]|]).
    contradiction. }
  destruct Ha as (a & -> & Hty & Hda).
  unfold get_value. rewrite Hty. cbn [call_type].
  rewrite (str2bool_rejects s Ht Hf). rewrite Hda. reflexivity.
Qed.

Lemma bad_boolean_stops_witness :
  main Sample.env [(Opt.shrink, "0.5"); (Opt.overwrite, "maybe");
                   (Opt.frame, "3")]
  = ([ArgparseError "--overwrite" "Boolean value expected."], Exit 2).
Proof.
  refine (bad_boolean_stops Sample.env [(Opt.shrink, "0.5")]
            [(Opt.frame, "3")] Opt.overwrite "maybe" [] _ eq_refl _ _ _).
  - simpl. auto.
  - simpl. intros H.
    repeat (destruct H as [H | H]; [discriminate H|]). exact H.
  - simpl. intros H.
    repeat (destruct H as [H | H]; [discriminate H|]). exact H.
Defined.

(** X11: when the product cannot be obtained ([lk.open] raises, or the
    search or the download for the default target raises), nothing
    catches the exception: the process ends with status 1, the TESS
    check is not reached and the delegate is not called. *)
Theorem acquisition_failure (E : collaborators) c tr args (e : exc) :
  parse_args E c = (tr, Ret args) ->
  (exists f, args Opt.tpf_filename = VStr f /\ lk_open E (VStr f) = Raise e)
  \/ (args Opt.tpf_filename = VNone
      /\ (lk_search_tesscut E "XZ Cyg" 14 = Raise e
          \/ exists search_result,
              lk_search_tesscut E "XZ Cyg" 14 = Ret search_result
              /\ download E search_result 10 0 = Raise e)) ->
  snd (main E c) = Raise e
  /\ exit_status (snd (main E c)) = 1
  /\ overlay_calls (fst (main E c)) = []
  /\ (fst (main E c) = [Stdout LF]
      \/ fst (main E c)
         = [Stdout LF;
            Stdout (("No TargetPixelFile (TPF) filename given." ++ LF) ++ LF)]).
Proof.
  intros Hp Hfail. rewrite (main_parsed E _ _ _ Hp).
  unfold main_body, acquire_tpf. cbv zeta.
  destruct Hfail as [(f & -> & Ho) | (-> & [Hs | (sr & Hs & Hd)])]; simpl.
  - rewrite Ho. simpl. auto.
  - rewrite Hs. simpl. auto.
  - rewrite Hs. simpl. rewrite Hd. simpl. auto.
Qed.

Lemma acquisition_failure_witness :
  snd (main Sample.env [(Opt.tpf_filename, "nothing.fits")])
  = Raise (OtherError "FileNotFoundError")
  /\ exit_status (snd (main Sample.env [(Opt.tpf_filename, "nothing.fits")]))
     = 1.
Proof.
  destruct (acquisition_failure Sample.env
              [(Opt.tpf_filename, "nothing.fits")] [] _
              (OtherError "FileNotFoundError") eq_refl
              (or_introl (ex_intro _ "nothing.fits" (conj eq_refl eq_refl))))
    as (H1 & H2 & _).
  split; [exact H1 | exact H2].
Defined.

(** X12: the TESS check lets through only the products that pass it.
    Whatever else the script obtained ([None] from a search without
    result, a product whose path [ntpath.basename] or
    [os.path.dirname] rejects, a product with a missing or raising
    attribute, a product of another mission) ends the script with the
    diagnostic and status 1, before the delegate. *)
Theorem unreadable_exits (E : collaborators) c tr args tpf :
  parse_args E c = (tr, Ret args) ->
  obtains E (args Opt.tpf_filename) tpf ->
  ~ passes_tess_check E tpf ->
  snd (main E c) = Exit 1
  /\ contains (stdout_of (fst (main E c))) not_tess_message
  /\ overlay_calls (fst (main E c)) = [].
Proof.
  intros Hp Hobt Hnot.
  destruct (obtains_acquire E _ _ _ _ Hp Hobt)
    as (tr1 & shrink & title & Ha & Ho1 & _).
  destruct (check_tess_cases E tpf (args Opt.tpf_filename))
    as [(Hr & _) | (_ & tr2 & Hc & Ht2 & Hmsg)]; [contradiction|].
  rewrite (main_parsed E _ _ _ Hp), (main_body_exits E _ _ _ _ _ _ _ Ha Hc).
  cbn [fst snd]. repeat split.
  - change (Stdout LF :: tr1 ++ tr2)%list
      with ([Stdout LF] ++ (tr1 ++ tr2))%list.
    rewrite !stdout_of_app. now do 2 apply contains_app_r.
  - cbn [overlay_calls]. rewrite overlay_calls_app, Ho1.
    now apply text_only_quiet in Ht2 as [_ ->].
Qed.

Lemma unreadable_exits_witness :
  ~ passes_tess_check no_result_env None_object
  /\ snd (main no_result_env []) = Exit 1
  /\ overlay_calls (fst (main no_result_env [])) = [].
Proof.
  assert (Hnot : ~ passes_tess_check no_result_env None_object).
  { intros (p & b & d & H & _). discriminate H. }
  split; [exact Hnot|].
  destruct (unreadable_exits no_result_env [] [] _ None_object eq_refl
              (ex_intro _ tt (conj eq_refl eq_refl)) Hnot)
    as (H1 & _ & H2).
  split; [exact H1 | exact H2].
Defined.

(** ** Further properties of the test runner *)

Section RunnerFurther.
Import check_mkpy3_v5.
Variable World : Type.
Variable run : list string -> World -> World * outcome CompletedProcess.

Lemma prologue_counts cwd filel (w : World) :
  good (prologue cwd filel w) = 0 /\ bad (prologue cwd filel w) = 0
  /\ commands (prologue cwd filel w) = [].
Proof. unfold prologue. cbn -[fmt_d]. auto. Qed.

Lemma epilogue_commands sz (st : state World) :
  commands (epilogue sz st) = commands st.
Proof.
  unfold epilogue. cbn -[fmt_d]. destruct (good st =? sz); reflexivity.
Qed.

(** X13: a run that reaches its end has started one child per
    discovered script, in the order of the sorted list, each as
    [python3 <script>] with no further argument, and nothing else. *)
Theorem one_child_per_script (cwd : string) (filel : list string)
        (w : World) (st : state World) :
  main run cwd filel w = (st, Ret tt) ->
  commands st = map command filel
  /\ List.length (commands st) = List.length filel
  /\ Forall (fun cmd => exists name, cmd = ["python3"; name] /\ In name filel)
            (commands st).
Proof.
  intros Hmain. unfold main in Hmain.
  destruct (loop run 1 filel (prologue cwd filel w))
    as [st1 [u | e | n]] eqn:Hloop; try discriminate Hmain.
  inversion Hmain; subst st.
  destruct (loop_inv _ run _ _ _ _ _ Hloop) as [_ Hcmd].
  destruct (prologue_counts cwd filel w) as (_ & _ & Hc0).
  rewrite Hc0 in Hcmd. simpl in Hcmd.
  rewrite epilogue_commands, Hcmd. repeat split.
  - now rewrite length_map.
  - apply Forall_forall. intros cmd Hin. apply in_map_iff in Hin.
    destruct Hin as (name & <- & Hin). exists name. split; [reflexivity | exact Hin].
Qed.

Lemma loop_pure (res : list string -> CompletedProcess) :
  (forall cmd w, snd (run cmd w) = Ret (res cmd)) ->
  forall l k st,
  exists st',
    loop run k l st = (st', Ret tt)
    /\ good st' = good st + Z.of_nat (List.length (passing res l))
    /\ bad st' = bad st + Z.of_nat (List.length (failing res l)).
Proof.
  intros Hres. induction l as [| name l IH]; intros k st.
  - exists st. simpl. repeat split; lia.
  - cbn [loop].
    assert (Hb : exists st1,
               body run k name st = (st1, Ret tt)
               /\ good st1 = good st
                             + (if returncode (res (command name)) =? 0
                                then 1 else 0)
               /\ bad st1 = bad st
                            + (if returncode (res (command name)) =? 0
                               then 0 else 1)).
    { unfold body.
      pose proof (Hres (command name)
                       (world (echo ("[" ++ fmt_d k ++ "] " ++ strip name
                                         ++ " : ") "" st))) as Hr.
      destruct (run _ _) as [w' r]. simpl in Hr. subst r.
      destruct (returncode (res (command name)) =? 0);
        cbn -[fmt_d strip]; eexists; (split; [reflexivity|]);
        cbn -[fmt_d strip]; split; lia. }
    destruct Hb as (st1 & -> & Hg & Hbd).
    destruct (IH (k + 1) st1) as (st' & Hl & Hg' & Hb').
    exists st'. split; [exact Hl|]. unfold passing, failing in *.
    cbn [filter].
    destruct (returncode (res (command name)) =? 0); cbn [negb List.length];
      split; lia.
Qed.

(** X14: when the result of a child depends on its command only, the
    run reaches its end, [bad] is the number of scripts whose child
    ended with a code other than zero and [good] the number of the
    others; the runner itself ends with status 0 however many scripts
    failed. *)
Theorem counts_are_exact (res : list string -> CompletedProcess)
        (cwd : string) (filel : list string) (w : World) :
  (forall cmd w0, snd (run cmd w0) = Ret (res cmd)) ->
  exists st,
    main run cwd filel w = (st, Ret tt)
    /\ good st = Z.of_nat (List.length (passing res filel))
    /\ bad st = Z.of_nat (List.length (failing res filel))
    /\ exit_status (snd (main run cwd filel w)) = 0.
Proof.
  intros Hres. unfold main.
  destruct (loop_pure res Hres filel 1 (prologue cwd filel w))
    as (st1 & -> & Hg & Hb).
  destruct (prologue_counts cwd filel w) as (Hg0 & Hb0 & _).
  destruct (epilogue_counts _ (Z.of_nat (List.length filel)) st1)
    as [Heg Heb].
  eexists. split; [reflexivity|]. rewrite Heg, Heb. cbn [snd exit_status].
  repeat split; lia.
Qed.

(** X15: the summary of a run that reaches its end says that all files
    pass exactly when no script failed, with the number of scripts;
    otherwise it gives the number of failed scripts out of that
    number. *)
Theorem summary_matches_counts (cwd : string) (filel : list string)
        (w : World) (st : state World) :
  main run cwd filel w = (st, Ret tt) ->
  exists st1,
    loop run 1 filel (prologue cwd filel w) = (st1, Ret tt)
    /\ bad st = bad st1
    /\ printed st
       = printed st1 ++ LF
         ++ (if bad st =? 0 then
               LF ++ "All " ++ fmt_d (Z.of_nat (List.length filel))
                  ++ " files PASS  :-)"
             else
               fmt_d (bad st) ++ " of "
                     ++ fmt_d (Z.of_nat (List.length filel))
                     ++ " files FAIL  8=X")
         ++ LF ++ LF.
Proof.
  intros Hmain. unfold main in Hmain.
  destruct (loop run 1 filel (prologue cwd filel w))
    as [st1 [[] | e | n]] eqn:Hloop; try discriminate Hmain.
  inversion Hmain; subst st. exists st1. split; [reflexivity|].
  destruct (epilogue_counts _ (Z.of_nat (List.length filel)) st1)
    as [_ Heb].
  split; [exact Heb|]. rewrite Heb.
  destruct (loop_inv _ run _ _ _ _ _ Hloop) as [Hsum _].
  destruct (prologue_counts cwd filel w) as (Hg0 & Hb0 & _).
  rewrite Hg0, Hb0 in Hsum.
  unfold epilogue. cbn -[fmt_d append Z.of_nat].
  destruct (good st1 =? Z.of_nat (List.length filel)) eqn:Hg.
  - apply Z.eqb_eq in Hg. assert (Hb : bad st1 = 0) by lia.
    rewrite Hb, Hg. cbn -[fmt_d append Z.of_nat].
    rewrite !append_assoc. reflexivity.
  - apply Z.eqb_neq in Hg. assert (Hb : bad st1 <> 0) by lia.
    apply Z.eqb_neq in Hb. rewrite Hb. cbn -[fmt_d append Z.of_nat].
    rewrite !append_assoc. reflexivity.
Qed.

Lemma append_nil_r (s : string) : s ++ "" = s.
Proof. induction s as [| c s IH]; simpl; [reflexivity | now rewrite IH]. Qed.

(** X16: when [subprocess.run] raises for a script, the run stops
    there: the scripts after it are not run, no summary is printed, the
    exception ends the runner, and the counters count the scripts before
    it. *)
Theorem run_stops_at_raise (cwd : string) (done rest : list string)
        (name : string) (st1 : state World) (w w' : World) (e : exc) :
  let filel := (done ++ name :: rest)%list in
  loop run 1 done (prologue cwd filel w) = (st1, Ret tt) ->
  run (command name) (world st1) = (w', Raise e) ->
  exists st,
    main run cwd filel w = (st, Raise e)
    /\ commands st = map command (done ++ [name])%list
    /\ good st + bad st = Z.of_nat (List.length done)
    /\ printed st
       = printed st1 ++ "[" ++ fmt_d (1 + Z.of_nat (List.length done))
                     ++ "] " ++ strip name ++ " : ".
Proof.
  intros filel Hdone Hrun. unfold main.
  assert (Hloop : loop run 1 filel (prologue cwd filel w)
                  = body run (1 + Z.of_nat (List.length done)) name st1).
  { unfold filel at 1. rewrite loop_app, Hdone. cbn [loop].
    unfold body. cbn -[fmt_d strip append Z.add Z.of_nat]. rewrite Hrun. reflexivity. }
  rewrite Hloop. unfold body. cbn -[fmt_d strip append Z.add Z.of_nat]. rewrite Hrun.
  eexists. split; [reflexivity|]. cbn -[fmt_d strip append Z.add Z.of_nat].
  destruct (loop_inv _ run _ _ _ _ _ Hdone) as [Hsum Hcmd].
  destruct (prologue_counts cwd filel w) as (Hg0 & Hb0 & Hc0).
  rewrite Hc0 in Hcmd. simpl in Hcmd. repeat split.
  - rewrite Hcmd, map_app. reflexivity.
  - lia.
  - now rewrite append_nil_r.
Qed.
End RunnerFurther.

Lemma one_child_per_script_witness :
  exists st,
    check_mkpy3_v5.main Sample.run "/home/u" Sample.scripts 0%nat
    = (st, Ret tt)
    /\ check_mkpy3_v5.commands st
       = [["python3"; "./mkpy3_a.py"]; ["python3"; "./mkpy3_bb.py"];
          ["python3"; "./mkpy3_c.py"]].
Proof.
  eexists. split; [reflexivity|].
  exact (proj1 (one_child_per_script nat Sample.run "/home/u" Sample.scripts
                  0%nat _ eq_refl)).
Defined.

Lemma counts_are_exact_witness :
  exists st,
    check_mkpy3_v5.main Sample.run "/home/u" Sample.scripts 0%nat
    = (st, Ret tt)
    /\ check_mkpy3_v5.good st = 2 /\ check_mkpy3_v5.bad st = 1.
Proof.
  destruct (counts_are_exact nat Sample.run sample_result "/home/u"
              Sample.scripts 0%nat (fun cmd w0 => eq_refl))
    as (st & Hmain & Hg & Hb & _).
  exists st. split; [exact Hmain|]. split; [exact Hg | exact Hb].
Defined.

Lemma summary_matches_counts_witness :
  exists st st1 : check_mkpy3_v5.state nat,
    check_mkpy3_v5.main Sample.run "/home/u" Sample.scripts 0%nat
    = (st, Ret tt)
    /\ check_mkpy3_v5.printed st
       = check_mkpy3_v5.printed st1 ++ LF ++ "1 of 3 files FAIL  8=X"
         ++ LF ++ LF.
Proof.
  destruct (summary_matches_counts nat Sample.run "/home/u" Sample.scripts
              0%nat
              (fst (check_mkpy3_v5.main Sample.run "/home/u" Sample.scripts
                                        0%nat))
              eq_refl) as (st1 & _ & _ & Hprinted).
  eexists. exists st1. split; [reflexivity | exact Hprinted].
Defined.

Lemma run_stops_at_raise_witness :
  exists st,
    check_mkpy3_v5.main (run_without "./mkpy3_bb.py") "/home/u"
                        Sample.scripts 0%nat
    = (st, Raise (OtherError "PermissionError"))
    /\ check_mkpy3_v5.commands st
       = [["python3"; "./mkpy3_a.py"]; ["python3"; "./mkpy3_bb.py"]]
    /\ check_mkpy3_v5.good st + check_mkpy3_v5.bad st = 1.
Proof.
  destruct (run_stops_at_raise nat (run_without "./mkpy3_bb.py") "/home/u"
              ["./mkpy3_a.py"] ["./mkpy3_c.py"] "./mkpy3_bb.py" _ 0%nat _
              (OtherError "PermissionError") eq_refl eq_refl)
    as (st & Hmain & Hcmd & Hsum & _).
  exists st. split; [exact Hmain|]. split; [exact Hcmd | exact Hsum].
Defined.
